(** * AesGcmSiv.Net native boundary: validation, test double and OpenSSL adapter

    A shallow embedding of [src/Native/aesgcmsiv.h],
    [src/Native/mock_aesgcmsiv.cpp] and [src/Native/aesgcmsiv.cpp].

    Conventions of the embedding
    - a [uint8_t] is a [Z]; the conversion to [uint8_t] on a store is
      written out as [uint8];
    - a [size_t] is a [Z]; its arithmetic wraps modulo 2^64 ([size_t_wrap]);
    - a pointer argument is a [ptr]: [None] is the null pointer, [Some l] is
      a pointer to a memory region whose bytes are [l].  The length that the
      caller declares travels separately, exactly as in the C signatures;
    - the regions behind distinct pointer arguments are disjoint;
    - a read or a write outside a region, or through a null pointer, is
      undefined behaviour in C; the test double returns [None] there;
    - an output buffer is threaded through: a function takes the contents
      the caller's buffer has before the call and returns the contents it has
      after the call, next to the [int] return code. *)

From Stdlib Require Import ZArith Lia String.
From stdpp Require Import base option list.

Local Open Scope Z_scope.

(** ** aesgcmsiv.h *)

Definition AESGCMSIV_SUCCESS : Z := 0.
Definition AESGCMSIV_ERROR_INVALID_KEY : Z := -1.
Definition AESGCMSIV_ERROR_INVALID_NONCE : Z := -2.
Definition AESGCMSIV_ERROR_INVALID_INPUT : Z := -3.
Definition AESGCMSIV_ERROR_INVALID_TAG : Z := -4.
Definition AESGCMSIV_ERROR_DECRYPT_FAILED : Z := -5.
Definition AESGCMSIV_ERROR_INTERNAL : Z := -6.

Definition AESGCMSIV_KEY_SIZE : Z := 32.
Definition AESGCMSIV_NONCE_SIZE : Z := 12.
Definition AESGCMSIV_TAG_SIZE : Z := 16.

(** ** Memory *)

Abbreviation buffer := (list Z).
Abbreviation ptr := (option (list Z)).

Definition is_null (p : ptr) : bool :=
  match p with
  | None => true
  | Some _ => false
  end.

Definition uint8 (v : Z) : Z := v mod 256.
Definition size_t_wrap (v : Z) : Z := v mod 2 ^ 64.

(** [static_cast<int>] of a [size_t]: reduction to a signed 32-bit value. *)
Definition cast_int (v : Z) : Z := (v + 2 ^ 31) mod 2 ^ 32 - 2 ^ 31.

(** [b[i] = v] inside the region; outside it the write is undefined. *)
Definition store (b : buffer) (i : nat) (v : Z) : option buffer :=
  if decide (i < length b)%nat then Some (<[i := uint8 v]> b) else None.

Definition byte_range (v : Z) : Prop := 0 <= v < 256.
Definition bytes (b : buffer) : Prop := Forall byte_range b.

(** Flipping bit [k] of the byte at index [j]. *)
Definition flip_bit (b : buffer) (j : nat) (k : Z) : buffer :=
  alter (fun v => Z.lxor v (2 ^ k)) j b.

(** ** mock_aesgcmsiv.cpp: the deterministic test double *)

Module Mock.

(** [for (size_t i = 0; i < len; i++)
      dst[i] = src[i] ^ (key[i % 32]) ^ (nonce[i % 12]);]
    with [todo] the iterations still to run ([len - i]). The counter stays
    below [len], so it never wraps. *)
Fixpoint xor_loop (todo i : nat) (key nonce src dst : buffer) : option buffer :=
  match todo with
  | O => Some dst
  | S todo' =>
      p ← src !! i;
      k ← key !! (i mod 32)%nat;
      n ← nonce !! (i mod 12)%nat;
      dst' ← store dst i (Z.lxor (Z.lxor p k) n);
      xor_loop todo' (S i) key nonce src dst'
  end.

(** [(key[i] + nonce[i % 12] + len) & 0xFF]: the sum is taken in [size_t]
    because [len] is one; the result is stored in a [uint8_t]. *)
Definition tag_byte (k n len : Z) : Z :=
  uint8 (Z.land (size_t_wrap (k + n + len)) 255).

(** [for (int i = 0; i < AESGCMSIV_TAG_SIZE; i++)
      tag_out[i] = (key[i] + nonce[i % 12] + plaintext_len) & 0xFF;] *)
Fixpoint tag_loop (todo i : nat) (key nonce : buffer) (len : Z)
    (tag_out : buffer) : option buffer :=
  match todo with
  | O => Some tag_out
  | S todo' =>
      k ← key !! i;
      n ← nonce !! (i mod 12)%nat;
      tag_out' ← store tag_out i (tag_byte k n len);
      tag_loop todo' (S i) key nonce len tag_out'
  end.

(** [for (int i = 0; i < AESGCMSIV_TAG_SIZE; i++) {
      uint8_t expected_tag = (key[i] + nonce[i % 12] + ciphertext_len) & 0xFF;
      if (tag[i] != expected_tag) return AESGCMSIV_ERROR_DECRYPT_FAILED; }]
    [Some false] is the early return, [Some true] the fall through. *)
Fixpoint verify_loop (todo i : nat) (key nonce : buffer) (len : Z)
    (tag : buffer) : option bool :=
  match todo with
  | O => Some true
  | S todo' =>
      k ← key !! i;
      n ← nonce !! (i mod 12)%nat;
      t ← tag !! i;
      if decide (t ≠ tag_byte k n len) then Some false
      else verify_loop todo' (S i) key nonce len tag
  end.

(** Result: return code, [ciphertext_out] and [tag_out] after the call. *)
Definition aesgcmsiv_encrypt
    (key : ptr) (key_len : Z) (nonce : ptr) (nonce_len : Z)
    (plaintext : ptr) (plaintext_len : Z) (aad : ptr) (aad_len : Z)
    (ciphertext_out tag_out : ptr) : option (Z * ptr * ptr) :=
  if is_null key || negb (key_len =? AESGCMSIV_KEY_SIZE) then
    Some (AESGCMSIV_ERROR_INVALID_KEY, ciphertext_out, tag_out)
  else if is_null nonce || negb (nonce_len =? AESGCMSIV_NONCE_SIZE) then
    Some (AESGCMSIV_ERROR_INVALID_NONCE, ciphertext_out, tag_out)
  else if is_null plaintext || is_null ciphertext_out || is_null tag_out then
    Some (AESGCMSIV_ERROR_INVALID_INPUT, ciphertext_out, tag_out)
  else if negb (is_null aad) && (aad_len =? 0) then
    Some (AESGCMSIV_ERROR_INVALID_INPUT, ciphertext_out, tag_out)
  else
    k ← key; n ← nonce; p ← plaintext; c ← ciphertext_out; t ← tag_out;
    c' ← xor_loop (Z.to_nat plaintext_len) 0 k n p c;
    t' ← tag_loop (Z.to_nat AESGCMSIV_TAG_SIZE) 0 k n plaintext_len t;
    Some (AESGCMSIV_SUCCESS, Some c', Some t').

(** Result: return code and [plaintext_out] after the call. *)
Definition aesgcmsiv_decrypt
    (key : ptr) (key_len : Z) (nonce : ptr) (nonce_len : Z)
    (ciphertext : ptr) (ciphertext_len : Z) (aad : ptr) (aad_len : Z)
    (tag : ptr) (plaintext_out : ptr) : option (Z * ptr) :=
  if is_null key || negb (key_len =? AESGCMSIV_KEY_SIZE) then
    Some (AESGCMSIV_ERROR_INVALID_KEY, plaintext_out)
  else if is_null nonce || negb (nonce_len =? AESGCMSIV_NONCE_SIZE) then
    Some (AESGCMSIV_ERROR_INVALID_NONCE, plaintext_out)
  else if is_null ciphertext || is_null tag || is_null plaintext_out then
    Some (AESGCMSIV_ERROR_INVALID_INPUT, plaintext_out)
  else if negb (is_null aad) && (aad_len =? 0) then
    Some (AESGCMSIV_ERROR_INVALID_INPUT, plaintext_out)
  else
    k ← key; n ← nonce; c ← ciphertext; t ← tag; p ← plaintext_out;
    p' ← xor_loop (Z.to_nat ciphertext_len) 0 k n c p;
    ok ← verify_loop (Z.to_nat AESGCMSIV_TAG_SIZE) 0 k n ciphertext_len t;
    if ok : bool then Some (AESGCMSIV_SUCCESS, Some p')
    else Some (AESGCMSIV_ERROR_DECRYPT_FAILED, Some p').

End Mock.

(** ** aesgcmsiv.cpp: the OpenSSL adapter *)

Module Production.

(** The part of OpenSSL's EVP interface that the adapter calls. OpenSSL is an
    external library: its functions are taken as an interface, each one a
    function of the context it is given that returns its [int] result, the
    new context and the contents of the output buffer after the call. The
    [int* outl] results are never read by the adapter and are left out, and
    so are [EVP_CIPHER_CTX_free] and [EVP_CIPHER_free], which return
    nothing. *)
Class EVP := {
  EVP_CIPHER_CTX : Type;
  EVP_CIPHER : Type;
  EVP_CIPHER_CTX_new : option EVP_CIPHER_CTX;
  EVP_CIPHER_fetch : string -> option EVP_CIPHER;
  EVP_EncryptInit_ex2 :
    EVP_CIPHER_CTX -> EVP_CIPHER -> ptr -> ptr -> Z * EVP_CIPHER_CTX;
  EVP_EncryptUpdate :
    EVP_CIPHER_CTX -> ptr -> ptr -> Z -> Z * EVP_CIPHER_CTX * ptr;
  EVP_EncryptFinal_ex : EVP_CIPHER_CTX -> ptr -> Z * EVP_CIPHER_CTX * ptr;
  EVP_DecryptInit_ex2 :
    EVP_CIPHER_CTX -> EVP_CIPHER -> ptr -> ptr -> Z * EVP_CIPHER_CTX;
  EVP_DecryptUpdate :
    EVP_CIPHER_CTX -> ptr -> ptr -> Z -> Z * EVP_CIPHER_CTX * ptr;
  EVP_DecryptFinal_ex : EVP_CIPHER_CTX -> ptr -> Z * EVP_CIPHER_CTX * ptr;
  EVP_CIPHER_CTX_ctrl :
    EVP_CIPHER_CTX -> Z -> Z -> ptr -> Z * EVP_CIPHER_CTX * ptr
}.

(** Values of [openssl/evp.h]. *)
Definition EVP_CTRL_AEAD_GET_TAG : Z := 16.
Definition EVP_CTRL_AEAD_SET_TAG : Z := 17.

Definition validate_encrypt_params
    (key : ptr) (key_len : Z) (nonce : ptr) (nonce_len : Z)
    (plaintext : ptr) (plaintext_len : Z) (aad : ptr) (aad_len : Z)
    (ciphertext_out tag_out : ptr) : Z :=
  if is_null key || negb (key_len =? AESGCMSIV_KEY_SIZE) then
    AESGCMSIV_ERROR_INVALID_KEY
  else if is_null nonce || negb (nonce_len =? AESGCMSIV_NONCE_SIZE) then
    AESGCMSIV_ERROR_INVALID_NONCE
  else if is_null plaintext || is_null ciphertext_out || is_null tag_out then
    AESGCMSIV_ERROR_INVALID_INPUT
  else AESGCMSIV_SUCCESS.

Definition validate_decrypt_params
    (key : ptr) (key_len : Z) (nonce : ptr) (nonce_len : Z)
    (ciphertext : ptr) (ciphertext_len : Z) (aad : ptr) (aad_len : Z)
    (tag plaintext_out : ptr) : Z :=
  if is_null key || negb (key_len =? AESGCMSIV_KEY_SIZE) then
    AESGCMSIV_ERROR_INVALID_KEY
  else if is_null nonce || negb (nonce_len =? AESGCMSIV_NONCE_SIZE) then
    AESGCMSIV_ERROR_INVALID_NONCE
  else if is_null ciphertext || is_null tag || is_null plaintext_out then
    AESGCMSIV_ERROR_INVALID_INPUT
  else AESGCMSIV_SUCCESS.

Section Adapter.
Context `{E : EVP}.

(** [if (aad && aad_len > 0)
      if (EVP_xxxUpdate(ctx, nullptr, &out_len, aad, (int)aad_len) != 1) ...]
    [None] is the failing update; the skipped update leaves the context. *)
Definition feed_aad
    (update : EVP_CIPHER_CTX -> ptr -> ptr -> Z -> Z * EVP_CIPHER_CTX * ptr)
    (ctx : EVP_CIPHER_CTX) (aad : ptr) (aad_len : Z) : option EVP_CIPHER_CTX :=
  if negb (is_null aad) && (0 <? aad_len) then
    let '(r, ctx', _) := update ctx None aad (cast_int aad_len) in
    if negb (r =? 1) then None else Some ctx'
  else Some ctx.

(** Result: return code, [ciphertext_out] and [tag_out] after the call. *)
Definition aesgcmsiv_encrypt
    (key : ptr) (key_len : Z) (nonce : ptr) (nonce_len : Z)
    (plaintext : ptr) (plaintext_len : Z) (aad : ptr) (aad_len : Z)
    (ciphertext_out tag_out : ptr) : Z * ptr * ptr :=
  let validation_result :=
    validate_encrypt_params key key_len nonce nonce_len plaintext
      plaintext_len aad aad_len ciphertext_out tag_out in
  if negb (validation_result =? AESGCMSIV_SUCCESS) then
    (validation_result, ciphertext_out, tag_out)
  else
  match EVP_CIPHER_CTX_new with
  | None => (AESGCMSIV_ERROR_INTERNAL, ciphertext_out, tag_out)
  | Some ctx =>
  match EVP_CIPHER_fetch "AES-256-GCM-SIV" with
  | None => (AESGCMSIV_ERROR_INTERNAL, ciphertext_out, tag_out)
  | Some cipher =>
  let '(r, ctx) := EVP_EncryptInit_ex2 ctx cipher key nonce in
  if negb (r =? 1) then (AESGCMSIV_ERROR_INTERNAL, ciphertext_out, tag_out)
  else
  match feed_aad EVP_EncryptUpdate ctx aad aad_len with
  | None => (AESGCMSIV_ERROR_INTERNAL, ciphertext_out, tag_out)
  | Some ctx =>
  let '(r, ctx, ciphertext_out) :=
    EVP_EncryptUpdate ctx ciphertext_out plaintext (cast_int plaintext_len) in
  if negb (r =? 1) then (AESGCMSIV_ERROR_INTERNAL, ciphertext_out, tag_out)
  else
  let '(r, ctx, _) := EVP_EncryptFinal_ex ctx None in
  if negb (r =? 1) then (AESGCMSIV_ERROR_INTERNAL, ciphertext_out, tag_out)
  else
  let '(r, ctx, tag_out) :=
    EVP_CIPHER_CTX_ctrl ctx EVP_CTRL_AEAD_GET_TAG AESGCMSIV_TAG_SIZE tag_out in
  if negb (r =? 1) then (AESGCMSIV_ERROR_INTERNAL, ciphertext_out, tag_out)
  else (AESGCMSIV_SUCCESS, ciphertext_out, tag_out)
  end end end.

(** Result: return code and [plaintext_out] after the call. The tag is
    [const]: what [EVP_CIPHER_CTX_ctrl] leaves behind that pointer is not
    part of the result. *)
Definition aesgcmsiv_decrypt
    (key : ptr) (key_len : Z) (nonce : ptr) (nonce_len : Z)
    (ciphertext : ptr) (ciphertext_len : Z) (aad : ptr) (aad_len : Z)
    (tag plaintext_out : ptr) : Z * ptr :=
  let validation_result :=
    validate_decrypt_params key key_len nonce nonce_len ciphertext
      ciphertext_len aad aad_len tag plaintext_out in
  if negb (validation_result =? AESGCMSIV_SUCCESS) then
    (validation_result, plaintext_out)
  else
  match EVP_CIPHER_CTX_new with
  | None => (AESGCMSIV_ERROR_INTERNAL, plaintext_out)
  | Some ctx =>
  match EVP_CIPHER_fetch "AES-256-GCM-SIV" with
  | None => (AESGCMSIV_ERROR_INTERNAL, plaintext_out)
  | Some cipher =>
  let '(r, ctx) := EVP_DecryptInit_ex2 ctx cipher key nonce in
  if negb (r =? 1) then (AESGCMSIV_ERROR_INTERNAL, plaintext_out)
  else
  match feed_aad EVP_DecryptUpdate ctx aad aad_len with
  | None => (AESGCMSIV_ERROR_INTERNAL, plaintext_out)
  | Some ctx =>
  let '(r, ctx, _) :=
    EVP_CIPHER_CTX_ctrl ctx EVP_CTRL_AEAD_SET_TAG AESGCMSIV_TAG_SIZE tag in
  if negb (r =? 1) then (AESGCMSIV_ERROR_INVALID_TAG, plaintext_out)
  else
  let '(r, ctx, plaintext_out) :=
    EVP_DecryptUpdate ctx plaintext_out ciphertext (cast_int ciphertext_len) in
  if negb (r =? 1) then (AESGCMSIV_ERROR_DECRYPT_FAILED, plaintext_out)
  else
  let '(r, ctx, _) := EVP_DecryptFinal_ex ctx None in
  if negb (r =? 1) then (AESGCMSIV_ERROR_DECRYPT_FAILED, plaintext_out)
  else (AESGCMSIV_SUCCESS, plaintext_out)
  end end end.

End Adapter.
End Production.

(** ** The ordered checks, in the words of the specification

    Section 4.1: the key must be non-absent and exactly 32 bytes, else
    InvalidKey; then the nonce must be non-absent and exactly 12 bytes, else
    InvalidNonce; then the required buffers must all be non-absent, else
    InvalidInput. The first failing check wins; [None] when none fails. *)
Definition first_failing_check (key : ptr) (key_len : Z) (nonce : ptr)
    (nonce_len : Z) (required : list ptr) : option Z :=
  if is_null key || negb (key_len =? 32) then
    Some AESGCMSIV_ERROR_INVALID_KEY
  else if is_null nonce || negb (nonce_len =? 12) then
    Some AESGCMSIV_ERROR_INVALID_NONCE
  else if existsb is_null required then
    Some AESGCMSIV_ERROR_INVALID_INPUT
  else None.

(** An OpenSSL in which [EVP_CIPHER_fetch] does not find the cipher (the
    algorithm exists since OpenSSL 3.2 only) and every call fails. *)
Definition no_cipher : Production.EVP := {|
  Production.EVP_CIPHER_CTX := unit;
  Production.EVP_CIPHER := unit;
  Production.EVP_CIPHER_CTX_new := Some tt;
  Production.EVP_CIPHER_fetch := fun _ => None;
  Production.EVP_EncryptInit_ex2 := fun ctx _ _ _ => (0, ctx);
  Production.EVP_EncryptUpdate := fun ctx out _ _ => (0, ctx, out);
  Production.EVP_EncryptFinal_ex := fun ctx out => (0, ctx, out);
  Production.EVP_DecryptInit_ex2 := fun ctx _ _ _ => (0, ctx);
  Production.EVP_DecryptUpdate := fun ctx out _ _ => (0, ctx, out);
  Production.EVP_DecryptFinal_ex := fun ctx out => (0, ctx, out);
  Production.EVP_CIPHER_CTX_ctrl := fun ctx _ _ out => (0, ctx, out)
|}.

(** An OpenSSL whose calls all succeed and whose update calls keep to the
    documented contract on sizes: [EVP_EncryptUpdate] and
    [EVP_DecryptUpdate] take [inl] bytes from [in] and write that many bytes
    to [out] (none when [out] is null, as in the aad call), and refuse a
    negative [inl]. The bytes pass through unchanged and the control call
    leaves the tag as it is: it stands in for the sizes OpenSSL moves, not
    for the cipher. *)
Definition update_inl (ctx : unit) (out inp : ptr) (inl : Z)
    : Z * unit * ptr :=
  if inl <? 0 then (0, ctx, out)
  else
    match out, inp with
    | Some o, Some i =>
        (1, ctx, Some (take (Z.to_nat inl) i ++ drop (Z.to_nat inl) o))
    | _, _ => (1, ctx, out)
    end.

Definition inl_engine : Production.EVP := {|
  Production.EVP_CIPHER_CTX := unit;
  Production.EVP_CIPHER := unit;
  Production.EVP_CIPHER_CTX_new := Some tt;
  Production.EVP_CIPHER_fetch := fun _ => Some tt;
  Production.EVP_EncryptInit_ex2 := fun ctx _ _ _ => (1, ctx);
  Production.EVP_EncryptUpdate := update_inl;
  Production.EVP_EncryptFinal_ex := fun ctx out => (1, ctx, out);
  Production.EVP_DecryptInit_ex2 := fun ctx _ _ _ => (1, ctx);
  Production.EVP_DecryptUpdate := update_inl;
  Production.EVP_DecryptFinal_ex := fun ctx out => (1, ctx, out);
  Production.EVP_CIPHER_CTX_ctrl := fun ctx _ _ out => (1, ctx, out)
|}.

(** ** Vocabulary of the statements *)

(** [v] is the byte that the transform of the test double computes at index
    [j]: [src[j] ^ key[j % 32] ^ nonce[j % 12]] as a [uint8_t]. *)
Definition xor_at (key nonce src : buffer) (j : nat) (v : Z) : Prop :=
  exists p k n,
    src !! j = Some p /\ key !! (j mod 32)%nat = Some k /\
    nonce !! (j mod 12)%nat = Some n /\ v = uint8 (Z.lxor (Z.lxor p k) n).

(** [v] is the tag byte of the test double at index [j]. *)
Definition tag_at (key nonce : buffer) (len : Z) (j : nat) (v : Z) : Prop :=
  exists k n,
    key !! j = Some k /\ nonce !! (j mod 12)%nat = Some n /\
    v = Mock.tag_byte k n len.

(** The aad passes the aad check of the test double ([if (aad && !aad_len)]
    in [mock_aesgcmsiv.cpp]): it is absent, or its declared length is not
    zero. *)
Definition aad_accepted (aad : ptr) (aad_len : Z) : Prop :=
  aad = None \/ aad_len <> 0.

(** A non-null pointer points to at least [n] bytes (the caller's side of
    the header's "must be at least ... bytes"). *)
Definition region_ok (p : ptr) (n : nat) : Prop :=
  match p with
  | Some l => (n <= length l)%nat
  | None => True
  end.

(** Inputs of the examples: zero bytes, and "hello" in ASCII. *)
Definition zeros (n : nat) : buffer := replicate n 0.
Definition hello : buffer := [104; 101; 108; 108; 111].

(** Closes the branch of an early [return] of a validation error. *)
Ltac early_return :=
  solve [ left; simplify_eq; split_and?; try done;
          repeat first [apply list_elem_of_here | apply list_elem_of_further] ].

(** ** Byte arithmetic *)

Lemma uint8_range v : byte_range (uint8 v).
Proof. unfold byte_range, uint8. apply Z.mod_pos_bound. lia. Qed.

Lemma uint8_small v : byte_range v -> uint8 v = v.
Proof. unfold byte_range, uint8. intros H. by apply Z.mod_small. Qed.

Lemma uint8_idemp v : uint8 (uint8 v) = uint8 v.
Proof. apply uint8_small, uint8_range. Qed.

Lemma uint8_lxor a b : uint8 (Z.lxor a b) = Z.lxor (uint8 a) (uint8 b).
Proof.
  unfold uint8. change 256 with (2 ^ 8).
  apply Z.bits_inj'. intros n Hn.
  rewrite Z.lxor_spec.
  destruct (Z.lt_ge_cases n 8) as [Hlt | Hge].
  - rewrite !Z.mod_pow2_bits_low by lia. by rewrite Z.lxor_spec.
  - by rewrite !Z.mod_pow2_bits_high by lia.
Qed.

Lemma lxor_cancel p k n : Z.lxor (Z.lxor (Z.lxor (Z.lxor p k) n) k) n = p.
Proof.
  apply Z.bits_inj'. intros i _. rewrite !Z.lxor_spec.
  destruct (Z.testbit p i), (Z.testbit k i), (Z.testbit n i); reflexivity.
Qed.

(** Flipping one bit moves a value by that power of two, up or down. *)
Lemma lxor_pow2 v k :
  0 <= k -> Z.lxor v (2 ^ k) = v + 2 ^ k \/ Z.lxor v (2 ^ k) = v - 2 ^ k.
Proof.
  intros Hk.
  assert (Hclear : forall w, Z.testbit w k = false ->
                             Z.lxor w (2 ^ k) = w + 2 ^ k).
  { intros w Hw. symmetry. apply Z.add_nocarry_lxor.
    apply Z.bits_inj'. intros i Hi. rewrite Z.land_spec, Z.bits_0.
    destruct (Z.eq_dec i k) as [-> | Hne].
    - by rewrite Hw.
    - rewrite Z.pow2_bits_false by lia. apply andb_false_r. }
  destruct (Z.testbit v k) eqn:Hv.
  - right.
    assert (Hb : Z.testbit (Z.lxor v (2 ^ k)) k = false).
    { rewrite Z.lxor_spec, Hv, Z.pow2_bits_true by lia. reflexivity. }
    apply Hclear in Hb.
    rewrite Z.lxor_assoc, Z.lxor_nilpotent, Z.lxor_0_r in Hb. lia.
  - left. by apply Hclear.
Qed.

Lemma lxor_pow2_neq v k : 0 <= k -> Z.lxor v (2 ^ k) <> v.
Proof.
  intros Hk. assert (0 < 2 ^ k) by (apply Z.pow_pos_nonneg; lia).
  destruct (lxor_pow2 v k Hk); lia.
Qed.

Lemma tag_byte_mod k n len : Mock.tag_byte k n len = (k + n + len) mod 256.
Proof.
  unfold Mock.tag_byte, size_t_wrap.
  change 255 with (Z.ones 8). rewrite Z.land_ones by lia.
  rewrite uint8_small by (apply Z.mod_pos_bound; lia).
  change (2 ^ 64) with (2 ^ 8 * 2 ^ 56). change (2 ^ 8) with 256.
  rewrite Z.rem_mul_r by lia.
  rewrite Z.mul_comm, Z.mod_add by lia. apply Z.mod_mod. lia.
Qed.

Lemma mod256_shift a d : 0 < d < 256 -> (a + d) mod 256 <> a mod 256.
Proof.
  intros Hd Heq.
  pose proof (Z.div_mod a 256 ltac:(lia)).
  pose proof (Z.div_mod (a + d) 256 ltac:(lia)).
  pose proof (Z.mod_pos_bound a 256 ltac:(lia)).
  lia.
Qed.

Lemma pow2_byte k : 0 <= k < 8 -> 0 < 2 ^ k < 256.
Proof.
  intros Hk. split; [apply Z.pow_pos_nonneg; lia |].
  change 256 with (2 ^ 8). apply Z.pow_lt_mono_r; lia.
Qed.

(** A flipped bit of the key byte or of the nonce byte changes the tag
    byte computed from them. *)
Lemma tag_byte_flip_key k n len b :
  0 <= b < 8 -> Mock.tag_byte (Z.lxor k (2 ^ b)) n len <> Mock.tag_byte k n len.
Proof.
  intros Hb. rewrite !tag_byte_mod. pose proof (pow2_byte b Hb).
  destruct (lxor_pow2 k b ltac:(lia)) as [-> | ->].
  - replace (k + 2 ^ b + n + len) with (k + n + len + 2 ^ b) by lia.
    by apply mod256_shift.
  - intros Heq. symmetry in Heq. revert Heq.
    replace (k + n + len) with (k - 2 ^ b + n + len + 2 ^ b) at 1 by lia.
    by apply mod256_shift.
Qed.

Lemma tag_byte_flip_nonce k n len b :
  0 <= b < 8 -> Mock.tag_byte k (Z.lxor n (2 ^ b)) len <> Mock.tag_byte k n len.
Proof.
  intros Hb. rewrite !tag_byte_mod.
  replace (k + Z.lxor n (2 ^ b) + len) with (Z.lxor n (2 ^ b) + k + len) by lia.
  replace (k + n + len) with (n + k + len) by lia.
  rewrite <- !tag_byte_mod. by apply tag_byte_flip_key.
Qed.

(** ** The loops of the test double *)

#[local] Arguments Nat.modulo : simpl never.

Lemma store_Some b i v b' :
  store b i v = Some b' -> (i < length b)%nat /\ b' = <[i := uint8 v]> b.
Proof. unfold store. case_decide; naive_solver. Qed.

Lemma store_is_Some b i v : (i < length b)%nat -> store b i v = Some (<[i := uint8 v]> b).
Proof. intros H. unfold store. by rewrite decide_True. Qed.

Lemma xor_at_fun key nonce src j v w :
  xor_at key nonce src j v -> xor_at key nonce src j w -> v = w.
Proof. intros (?&?&?&?&?&?&?) (?&?&?&?&?&?&?). congruence. Qed.

Lemma tag_at_fun key nonce len j v w :
  tag_at key nonce len j v -> tag_at key nonce len j w -> v = w.
Proof. intros (?&?&?&?&?) (?&?&?&?&?). congruence. Qed.

(** The transform writes exactly the indices [i .. i + todo - 1]. *)
Lemma xor_loop_spec todo : forall i key nonce src dst out,
  Mock.xor_loop todo i key nonce src dst = Some out ->
  length out = length dst /\
  (0 < todo -> i + todo <= length dst)%nat /\
  (forall j, (j < i \/ i + todo <= j)%nat -> out !! j = dst !! j) /\
  (forall j, (i <= j < i + todo)%nat ->
     exists v, out !! j = Some v /\ xor_at key nonce src j v).
Proof.
  induction todo as [| todo IH]; intros i key nonce src dst out Hrun; simpl in Hrun.
  - simplify_eq. split_and!; [done | lia | done | intros; lia].
  - destruct (src !! i) as [p |] eqn:Hp; [| done]. simpl in Hrun.
    destruct (key !! (i mod 32)%nat) as [k |] eqn:Hk; [| done]. simpl in Hrun.
    destruct (nonce !! (i mod 12)%nat) as [n |] eqn:Hn; [| done]. simpl in Hrun.
    destruct (store dst i (Z.lxor (Z.lxor p k) n)) as [dst' |] eqn:Hst; [| done].
    simpl in Hrun. apply store_Some in Hst as [Hi ->].
    apply IH in Hrun as (Hlen & Hcap & Hout & Hin).
    rewrite length_insert in Hlen, Hcap.
    split_and!; [done | destruct todo; lia | |].
    + intros j Hj. rewrite Hout by lia. apply list_lookup_insert_ne. lia.
    + intros j Hj. destruct (decide (j = i)) as [-> | Hne].
      * rewrite Hout by lia. rewrite list_lookup_insert_eq by done.
        eexists; split; [done |]. by exists p, k, n.
      * apply Hin. lia.
Qed.

Lemma xor_loop_total todo : forall i key nonce src dst,
  (i + todo <= length src)%nat -> (i + todo <= length dst)%nat ->
  (32 <= length key)%nat -> (12 <= length nonce)%nat ->
  is_Some (Mock.xor_loop todo i key nonce src dst).
Proof.
  induction todo as [| todo IH]; intros i key nonce src dst Hs Hd Hk Hn; simpl.
  - by eexists.
  - destruct (lookup_lt_is_Some_2 src i ltac:(lia)) as [p ->].
    destruct (lookup_lt_is_Some_2 key (i mod 32)%nat) as [k ->].
    { pose proof (Nat.mod_upper_bound i 32). lia. }
    destruct (lookup_lt_is_Some_2 nonce (i mod 12)%nat) as [n ->].
    { pose proof (Nat.mod_upper_bound i 12). lia. }
    simpl. rewrite store_is_Some by lia. simpl.
    apply IH; rewrite ?length_insert; lia.
Qed.

Lemma tag_loop_spec todo : forall i key nonce len dst out,
  Mock.tag_loop todo i key nonce len dst = Some out ->
  length out = length dst /\
  (0 < todo -> i + todo <= length dst)%nat /\
  (forall j, (j < i \/ i + todo <= j)%nat -> out !! j = dst !! j) /\
  (forall j, (i <= j < i + todo)%nat ->
     exists v, out !! j = Some v /\ tag_at key nonce len j v).
Proof.
  induction todo as [| todo IH]; intros i key nonce len dst out Hrun; simpl in Hrun.
  - simplify_eq. split_and!; [done | lia | done | intros; lia].
  - destruct (key !! i) as [k |] eqn:Hk; [| done]. simpl in Hrun.
    destruct (nonce !! (i mod 12)%nat) as [n |] eqn:Hn; [| done]. simpl in Hrun.
    destruct (store dst i (Mock.tag_byte k n len)) as [dst' |] eqn:Hst; [| done].
    simpl in Hrun. apply store_Some in Hst as [Hi ->].
    apply IH in Hrun as (Hlen & Hcap & Hout & Hin).
    rewrite length_insert in Hlen, Hcap.
    split_and!; [done | destruct todo; lia | |].
    + intros j Hj. rewrite Hout by lia. apply list_lookup_insert_ne. lia.
    + intros j Hj. destruct (decide (j = i)) as [-> | Hne].
      * rewrite Hout by lia. rewrite list_lookup_insert_eq by done.
        eexists; split; [done |]. exists k, n. repeat split; try done.
        unfold Mock.tag_byte. by rewrite uint8_idemp.
      * apply Hin. lia.
Qed.

Lemma tag_loop_total todo : forall i key nonce len dst,
  (i + todo <= length key)%nat -> (i + todo <= length dst)%nat ->
  (12 <= length nonce)%nat ->
  is_Some (Mock.tag_loop todo i key nonce len dst).
Proof.
  induction todo as [| todo IH]; intros i key nonce len dst Hk Hd Hn; simpl.
  - by eexists.
  - destruct (lookup_lt_is_Some_2 key i ltac:(lia)) as [k ->].
    destruct (lookup_lt_is_Some_2 nonce (i mod 12)%nat) as [n ->].
    { pose proof (Nat.mod_upper_bound i 12). lia. }
    simpl. rewrite store_is_Some by lia. simpl.
    apply IH; rewrite ?length_insert; lia.
Qed.

(** The verification falls through exactly when every tag byte is the
    expected one, and returns early exactly when one is not. *)
Lemma verify_loop_true todo : forall i key nonce len tag,
  Mock.verify_loop todo i key nonce len tag = Some true <->
  (forall j, (i <= j < i + todo)%nat ->
     exists v, tag !! j = Some v /\ tag_at key nonce len j v).
Proof.
  induction todo as [| todo IH]; intros i key nonce len tag; simpl.
  - split; [intros _ j Hj; lia | done].
  - split.
    + intros Hrun j Hj.
      destruct (key !! i) as [k |] eqn:Hk; [| done]. simpl in Hrun.
      destruct (nonce !! (i mod 12)%nat) as [n |] eqn:Hn; [| done]. simpl in Hrun.
      destruct (tag !! i) as [t |] eqn:Ht; [| done]. simpl in Hrun.
      case_decide as Hne; [done |].
      destruct (decide (j = i)) as [-> | Hji].
      * exists t. split; [done |].
        destruct (decide (t = Mock.tag_byte k n len)) as [Heq | Hneq]; [| done].
        by exists k, n.
      * apply (proj1 (IH _ _ _ _ _) Hrun). lia.
    + intros Hall.
      destruct (Hall i ltac:(lia)) as (t & Ht & k & n & Hk & Hn & Hv).
      rewrite Hk, Hn, Ht. simpl.
      rewrite decide_False by (intros Hc; apply Hc, Hv).
      apply IH. intros j Hj. apply Hall. lia.
Qed.

Lemma verify_loop_total todo : forall i key nonce len tag,
  (i + todo <= length key)%nat -> (i + todo <= length tag)%nat ->
  (12 <= length nonce)%nat ->
  is_Some (Mock.verify_loop todo i key nonce len tag).
Proof.
  induction todo as [| todo IH]; intros i key nonce len tag Hk Ht Hn; simpl.
  - by eexists.
  - destruct (lookup_lt_is_Some_2 key i ltac:(lia)) as [k ->].
    destruct (lookup_lt_is_Some_2 nonce (i mod 12)%nat) as [n ->].
    { pose proof (Nat.mod_upper_bound i 12). lia. }
    destruct (lookup_lt_is_Some_2 tag i ltac:(lia)) as [t ->].
    simpl. case_decide; [by eexists |]. apply IH; lia.
Qed.

Lemma verify_loop_false todo i key nonce len tag j v w :
  (i + todo <= length key)%nat -> (i + todo <= length tag)%nat ->
  (12 <= length nonce)%nat -> (i <= j < i + todo)%nat ->
  tag !! j = Some v -> tag_at key nonce len j w -> v <> w ->
  Mock.verify_loop todo i key nonce len tag = Some false.
Proof.
  intros Hk Ht Hn Hj Hv Hw Hne.
  destruct (verify_loop_total todo i key nonce len tag Hk Ht Hn) as [[] Hrun];
    [| done].
  exfalso. apply Hne.
  destruct (proj1 (verify_loop_true _ _ _ _ _ _) Hrun j Hj) as (v' & Hv' & Hat).
  simplify_eq. by eapply tag_at_fun.
Qed.

(** ** The entry points of the test double *)

#[local] Arguments Mock.xor_loop : simpl never.
#[local] Arguments Mock.tag_loop : simpl never.
#[local] Arguments Mock.verify_loop : simpl never.

Lemma aad_accepted_check aad aad_len :
  aad_accepted aad aad_len -> negb (is_null aad) && (aad_len =? 0) = false.
Proof.
  intros [-> | Hne]; [done |].
  apply andb_false_iff. right. by apply Z.eqb_neq.
Qed.

Lemma aad_check_accepted aad aad_len :
  negb (is_null aad) && (aad_len =? 0) = false -> aad_accepted aad aad_len.
Proof.
  intros [Hn | Hl]%andb_false_iff.
  - left. by destruct aad.
  - right. by apply Z.eqb_neq.
Qed.

Lemma mock_encrypt_run k n p c t key_len nonce_len len aad aad_len c1 t1 :
  key_len = AESGCMSIV_KEY_SIZE -> nonce_len = AESGCMSIV_NONCE_SIZE ->
  aad_accepted aad aad_len ->
  Mock.xor_loop (Z.to_nat len) 0 k n p c = Some c1 ->
  Mock.tag_loop 16 0 k n len t = Some t1 ->
  Mock.aesgcmsiv_encrypt (Some k) key_len (Some n) nonce_len (Some p) len
    aad aad_len (Some c) (Some t) = Some (AESGCMSIV_SUCCESS, Some c1, Some t1).
Proof.
  intros -> -> Haad Hx Ht. unfold Mock.aesgcmsiv_encrypt.
  rewrite (aad_accepted_check _ _ Haad). simpl.
  change (Z.to_nat AESGCMSIV_TAG_SIZE) with 16%nat. rewrite Hx. simpl. by rewrite Ht.
Qed.

Lemma mock_decrypt_run k n c t o key_len nonce_len len aad aad_len p1 ok :
  key_len = AESGCMSIV_KEY_SIZE -> nonce_len = AESGCMSIV_NONCE_SIZE ->
  aad_accepted aad aad_len ->
  Mock.xor_loop (Z.to_nat len) 0 k n c o = Some p1 ->
  Mock.verify_loop 16 0 k n len t = Some ok ->
  Mock.aesgcmsiv_decrypt (Some k) key_len (Some n) nonce_len (Some c) len
    aad aad_len (Some t) (Some o) =
  Some (if ok then AESGCMSIV_SUCCESS else AESGCMSIV_ERROR_DECRYPT_FAILED,
        Some p1).
Proof.
  intros -> -> Haad Hx Hv. unfold Mock.aesgcmsiv_decrypt.
  rewrite (aad_accepted_check _ _ Haad). simpl.
  change (Z.to_nat AESGCMSIV_TAG_SIZE) with 16%nat. rewrite Hx. simpl. rewrite Hv. simpl.
  by destruct ok.
Qed.

(** Every way the test double's Seal returns: a validation error with the
    output buffers as they were, or success after both loops. *)
Lemma mock_encrypt_inv key key_len nonce nonce_len plaintext plaintext_len
    aad aad_len ciphertext_out tag_out code c' t' :
  Mock.aesgcmsiv_encrypt key key_len nonce nonce_len plaintext plaintext_len
    aad aad_len ciphertext_out tag_out = Some (code, c', t') ->
  (code ∈ [AESGCMSIV_ERROR_INVALID_KEY; AESGCMSIV_ERROR_INVALID_NONCE;
           AESGCMSIV_ERROR_INVALID_INPUT] /\
   c' = ciphertext_out /\ t' = tag_out) \/
  (code = AESGCMSIV_SUCCESS /\
   key_len = AESGCMSIV_KEY_SIZE /\ nonce_len = AESGCMSIV_NONCE_SIZE /\
   aad_accepted aad aad_len /\
   exists k n p c t c1 t1,
     key = Some k /\ nonce = Some n /\ plaintext = Some p /\
     ciphertext_out = Some c /\ tag_out = Some t /\
     c' = Some c1 /\ t' = Some t1 /\
     Mock.xor_loop (Z.to_nat plaintext_len) 0 k n p c = Some c1 /\
     Mock.tag_loop 16 0 k n plaintext_len t = Some t1).
Proof.
  unfold Mock.aesgcmsiv_encrypt. intros H.
  destruct key as [k |], (Z.eqb_spec key_len AESGCMSIV_KEY_SIZE);
    simpl in H; try early_return.
  destruct nonce as [n |], (Z.eqb_spec nonce_len AESGCMSIV_NONCE_SIZE);
    simpl in H; try early_return.
  destruct plaintext as [p |], ciphertext_out as [c |], tag_out as [t |];
    simpl in H; try early_return.
  destruct (negb (is_null aad) && (aad_len =? 0)) eqn:Haad;
    [early_return |].
  apply aad_check_accepted in Haad. simpl in H.
  change (Z.to_nat AESGCMSIV_TAG_SIZE) with 16%nat in H.
  destruct (Mock.xor_loop _ _ _ _ _ _) as [c1 |] eqn:Hx; [| done]. simpl in H.
  destruct (Mock.tag_loop _ _ _ _ _ _) as [t1 |] eqn:Ht; [| done]. simpl in H.
  right. simplify_eq. split_and!; try done. by exists k, n, p, c, t, c1, t1.
Qed.

(** Every way the test double's Open returns: a validation error with the
    output buffer as it was, or the transform followed by the verdict of
    the tag loop. *)
Lemma mock_decrypt_inv key key_len nonce nonce_len ciphertext ciphertext_len
    aad aad_len tag plaintext_out code p' :
  Mock.aesgcmsiv_decrypt key key_len nonce nonce_len ciphertext ciphertext_len
    aad aad_len tag plaintext_out = Some (code, p') ->
  (code ∈ [AESGCMSIV_ERROR_INVALID_KEY; AESGCMSIV_ERROR_INVALID_NONCE;
           AESGCMSIV_ERROR_INVALID_INPUT] /\
   p' = plaintext_out) \/
  (key_len = AESGCMSIV_KEY_SIZE /\ nonce_len = AESGCMSIV_NONCE_SIZE /\
   aad_accepted aad aad_len /\
   exists k n c t o p1 ok,
     key = Some k /\ nonce = Some n /\ ciphertext = Some c /\
     tag = Some t /\ plaintext_out = Some o /\ p' = Some p1 /\
     Mock.xor_loop (Z.to_nat ciphertext_len) 0 k n c o = Some p1 /\
     Mock.verify_loop 16 0 k n ciphertext_len t = Some ok /\
     code = if ok : bool then AESGCMSIV_SUCCESS
            else AESGCMSIV_ERROR_DECRYPT_FAILED).
Proof.
  unfold Mock.aesgcmsiv_decrypt. intros H.
  destruct key as [k |], (Z.eqb_spec key_len AESGCMSIV_KEY_SIZE);
    simpl in H; try early_return.
  destruct nonce as [n |], (Z.eqb_spec nonce_len AESGCMSIV_NONCE_SIZE);
    simpl in H; try early_return.
  destruct ciphertext as [c |], tag as [t |], plaintext_out as [o |];
    simpl in H; try early_return.
  destruct (negb (is_null aad) && (aad_len =? 0)) eqn:Haad;
    [early_return |].
  apply aad_check_accepted in Haad. simpl in H.
  change (Z.to_nat AESGCMSIV_TAG_SIZE) with 16%nat in H.
  destruct (Mock.xor_loop _ _ _ _ _ _) as [p1 |] eqn:Hx; [| done]. simpl in H.
  destruct (Mock.verify_loop _ _ _ _ _ _) as [ok |] eqn:Hv; [| done].
  simpl in H. right. split_and!; try done.
  exists k, n, c, t, o, p1, ok. by destruct ok; simplify_eq.
Qed.

Lemma success_not_validation_error :
  AESGCMSIV_SUCCESS ∉ [AESGCMSIV_ERROR_INVALID_KEY;
    AESGCMSIV_ERROR_INVALID_NONCE; AESGCMSIV_ERROR_INVALID_INPUT].
Proof. rewrite !elem_of_cons, elem_of_nil. intros [|[|[|[]]]]; done. Qed.

Lemma decrypt_failed_not_validation_error :
  AESGCMSIV_ERROR_DECRYPT_FAILED ∉ [AESGCMSIV_ERROR_INVALID_KEY;
    AESGCMSIV_ERROR_INVALID_NONCE; AESGCMSIV_ERROR_INVALID_INPUT].
Proof. rewrite !elem_of_cons, elem_of_nil. intros [|[|[|[]]]]; done. Qed.

(** Seal returns success on every input that passes its four checks and
    whose regions are as large as declared. *)
Lemma mock_encrypt_total k n p c t key_len nonce_len len aad aad_len :
  key_len = AESGCMSIV_KEY_SIZE -> nonce_len = AESGCMSIV_NONCE_SIZE ->
  length k = 32%nat -> length n = 12%nat ->
  aad_accepted aad aad_len ->
  (Z.to_nat len <= length p)%nat -> (Z.to_nat len <= length c)%nat ->
  (16 <= length t)%nat ->
  exists c1 t1,
    Mock.aesgcmsiv_encrypt (Some k) key_len (Some n) nonce_len (Some p) len
      aad aad_len (Some c) (Some t) =
    Some (AESGCMSIV_SUCCESS, Some c1, Some t1).
Proof.
  intros Hkl Hnl Hk Hn Haad Hp Hc Ht.
  destruct (xor_loop_total (Z.to_nat len) 0 k n p c) as [c1 Hx]; try lia.
  destruct (tag_loop_total 16 0 k n len t) as [t1 Htag]; try lia.
  exists c1, t1. by apply mock_encrypt_run.
Qed.

Lemma xor_round_byte p k n :
  byte_range p ->
  uint8 (Z.lxor (Z.lxor (uint8 (Z.lxor (Z.lxor p k) n)) k) n) = p.
Proof.
  intros Hp. set (x := Z.lxor (Z.lxor p k) n).
  rewrite (uint8_lxor _ n), (uint8_lxor _ k), uint8_idemp.
  rewrite <- (uint8_lxor x k), <- uint8_lxor.
  subst x. rewrite lxor_cancel. by apply uint8_small.
Qed.

(** Undoing the transform with the same key and nonce gives the bytes
    back. *)
Lemma xor_loop_round_trip len k n p c c1 o p1 :
  bytes p ->
  Mock.xor_loop len 0 k n p c = Some c1 ->
  Mock.xor_loop len 0 k n c1 o = Some p1 ->
  take len p1 = take len p.
Proof.
  intros Hp Hseal Hopen.
  apply xor_loop_spec in Hseal as (_ & _ & _ & Hc1).
  apply xor_loop_spec in Hopen as (_ & _ & _ & Hp1).
  apply list_eq. intros i. destruct (decide (i < len)%nat) as [Hi | Hi].
  - rewrite !lookup_take_lt by done.
    destruct (Hp1 i ltac:(lia)) as (v & -> & x & k1 & n1 & Hx & Hk1 & Hn1 & ->).
    destruct (Hc1 i ltac:(lia)) as (w & Hw & q & k2 & n2 & Hq & Hk2 & Hn2 & ->).
    simplify_eq. rewrite Hq. f_equal. apply xor_round_byte.
    by eapply (Forall_lookup_1 _ p).
  - by rewrite !lookup_take_ge by lia.
Qed.

(** The tag that Seal wrote passes the tag loop of Open for the same key,
    nonce and length. *)
Lemma verify_sealed_tag k n len t t1 :
  Mock.tag_loop 16 0 k n len t = Some t1 ->
  Mock.verify_loop 16 0 k n len t1 = Some true.
Proof.
  intros Ht. apply tag_loop_spec in Ht as (_ & _ & _ & Hin).
  apply verify_loop_true. intros j Hj. by apply Hin.
Qed.


(** ** Flipped bits *)

Lemma flip_bit_length b j k : length (flip_bit b j k) = length b.
Proof. apply length_alter. Qed.

Lemma flip_bit_lookup_eq (b : buffer) j k v :
  b !! j = Some v -> flip_bit b j k !! j = Some (Z.lxor v (2 ^ k)).
Proof. intros H. unfold flip_bit. by rewrite list_lookup_alter_eq, H. Qed.

(** Open answers [AESGCMSIV_ERROR_DECRYPT_FAILED] as soon as one of the
    sixteen tag bytes is not the expected one. *)
Lemma mock_decrypt_rejects k n c t o key_len nonce_len len aad aad_len j v w :
  key_len = AESGCMSIV_KEY_SIZE -> nonce_len = AESGCMSIV_NONCE_SIZE ->
  aad_accepted aad aad_len ->
  length k = 32%nat -> length n = 12%nat ->
  (Z.to_nat len <= length c)%nat -> (Z.to_nat len <= length o)%nat ->
  (16 <= length t)%nat -> (j < 16)%nat ->
  t !! j = Some v -> tag_at k n len j w -> v <> w ->
  exists out,
    Mock.aesgcmsiv_decrypt (Some k) key_len (Some n) nonce_len (Some c) len
      aad aad_len (Some t) (Some o) =
    Some (AESGCMSIV_ERROR_DECRYPT_FAILED, Some out).
Proof.
  intros Hkl Hnl Haad Hk Hn Hc Ho Ht Hj Hv Hw Hne.
  destruct (xor_loop_total (Z.to_nat len) 0 k n c o) as [p1 Hx]; try lia.
  exists p1.
  rewrite (mock_decrypt_run k n c t o _ _ _ aad aad_len p1 false); try done.
  apply (verify_loop_false 16 0 k n len t j v w); try done; lia.
Qed.

(** The tag loop of Open never reads the ciphertext: after a successful
    Seal, Open accepts the sealed tag with any ciphertext bytes of the
    declared length. *)
Lemma mock_decrypt_accepts_any_ciphertext k n p c t o key_len nonce_len len
    aad aad_len c1 t1 (c2 : buffer) :
  length k = 32%nat -> length n = 12%nat ->
  (Z.to_nat len <= length c2)%nat -> (Z.to_nat len <= length o)%nat ->
  Mock.aesgcmsiv_encrypt (Some k) key_len (Some n) nonce_len (Some p) len
    aad aad_len (Some c) (Some t) =
    Some (AESGCMSIV_SUCCESS, Some c1, Some t1) ->
  exists out,
    Mock.aesgcmsiv_decrypt (Some k) key_len (Some n) nonce_len (Some c2) len
      aad aad_len (Some t1) (Some o) = Some (AESGCMSIV_SUCCESS, Some out).
Proof.
  intros Hk Hn Hc2 Ho Hseal.
  apply mock_encrypt_inv in Hseal
    as [(Hin & _) | (_ & Hkl & Hnl & Haad & k' & n' & ? & ? & ? & ? & t' & H)].
  { by apply success_not_validation_error in Hin. }
  destruct H as (? & ? & ? & ? & ? & ? & ? & _ & Ht). simplify_eq.
  destruct (xor_loop_total (Z.to_nat len) 0 k' n' c2 o) as [out Hx]; try lia.
  exists out.
  rewrite (mock_decrypt_run k' n' c2 t' o _ _ _ aad aad_len out true);
    try done.
  by eapply verify_sealed_tag.
Qed.

(** ** The adapter *)

(** The adapter returns either the error of its validator, before any call
    to OpenSSL and with the output buffers as they were, or, after the
    validator passed, [AESGCMSIV_ERROR_INTERNAL] or success. *)
Lemma production_encrypt_inv `{E : Production.EVP} key key_len nonce nonce_len
    plaintext plaintext_len aad aad_len ciphertext_out tag_out code c' t' :
  Production.aesgcmsiv_encrypt key key_len nonce nonce_len plaintext
    plaintext_len aad aad_len ciphertext_out tag_out = (code, c', t') ->
  (code = Production.validate_encrypt_params key key_len nonce nonce_len
            plaintext plaintext_len aad aad_len ciphertext_out tag_out /\
   code <> AESGCMSIV_SUCCESS /\ c' = ciphertext_out /\ t' = tag_out) \/
  (code = AESGCMSIV_ERROR_INTERNAL \/ code = AESGCMSIV_SUCCESS).
Proof.
  unfold Production.aesgcmsiv_encrypt. intros H.
  destruct (Z.eqb_spec
    (Production.validate_encrypt_params key key_len nonce nonce_len plaintext
       plaintext_len aad aad_len ciphertext_out tag_out) AESGCMSIV_SUCCESS)
    as [Hv | Hv]; simpl in H.
  - right. repeat case_match; simplify_eq; auto.
  - left. by simplify_eq.
Qed.

(** Likewise for Open, whose later failures are
    [AESGCMSIV_ERROR_INTERNAL], [AESGCMSIV_ERROR_INVALID_TAG] and
    [AESGCMSIV_ERROR_DECRYPT_FAILED]. *)
Lemma production_decrypt_inv `{E : Production.EVP} key key_len nonce nonce_len
    ciphertext ciphertext_len aad aad_len tag plaintext_out code p' :
  Production.aesgcmsiv_decrypt key key_len nonce nonce_len ciphertext
    ciphertext_len aad aad_len tag plaintext_out = (code, p') ->
  (code = Production.validate_decrypt_params key key_len nonce nonce_len
            ciphertext ciphertext_len aad aad_len tag plaintext_out /\
   code <> AESGCMSIV_SUCCESS /\ p' = plaintext_out) \/
  (code ∈ [AESGCMSIV_ERROR_INTERNAL; AESGCMSIV_ERROR_INVALID_TAG;
           AESGCMSIV_ERROR_DECRYPT_FAILED; AESGCMSIV_SUCCESS]).
Proof.
  unfold Production.aesgcmsiv_decrypt. intros H.
  destruct (Z.eqb_spec
    (Production.validate_decrypt_params key key_len nonce nonce_len ciphertext
       ciphertext_len aad aad_len tag plaintext_out) AESGCMSIV_SUCCESS)
    as [Hv | Hv]; simpl in H.
  - right. repeat case_match; simplify_eq;
      repeat first [apply list_elem_of_here | apply list_elem_of_further].
  - left. by simplify_eq.
Qed.

(** The adapter gives OpenSSL the same calls for an aad that is present
    with length zero and for an absent aad. *)
Lemma production_empty_aad_as_absent `{E : Production.EVP} key key_len nonce
    nonce_len b1 len a b2 b3 :
  Production.aesgcmsiv_encrypt key key_len nonce nonce_len b1 len (Some a) 0
    b2 b3 =
  Production.aesgcmsiv_encrypt key key_len nonce nonce_len b1 len None 0
    b2 b3 /\
  Production.aesgcmsiv_decrypt key key_len nonce nonce_len b1 len (Some a) 0
    b2 b3 =
  Production.aesgcmsiv_decrypt key key_len nonce nonce_len b1 len None 0
    b2 b3.
Proof. split; reflexivity. Qed.

Lemma validation_error_codes code :
  code ∈ [AESGCMSIV_ERROR_INVALID_KEY; AESGCMSIV_ERROR_INVALID_NONCE;
          AESGCMSIV_ERROR_INVALID_INPUT] ->
  code = -1 \/ code = -2 \/ code = -3.
Proof. rewrite !elem_of_cons, elem_of_nil. intros [-> | [-> | [-> | []]]]; auto. Qed.

(** ** What the loops leave behind *)

Lemma loop_untouched_tail (len : nat) (out dst : buffer) :
  (forall j, (j < 0 \/ 0 + len <= j)%nat -> out !! j = dst !! j) ->
  drop len out = drop len dst.
Proof.
  intros H. apply list_eq. intros i. rewrite !lookup_drop. apply H. lia.
Qed.

(** The bytes that the transform writes do not depend on what the output
    buffer held. *)
Lemma xor_loop_deterministic len k n p c c' c1 c2 :
  Mock.xor_loop len 0 k n p c = Some c1 ->
  Mock.xor_loop len 0 k n p c' = Some c2 ->
  take len c1 = take len c2.
Proof.
  intros (_ & _ & _ & H1)%xor_loop_spec (_ & _ & _ & H2)%xor_loop_spec.
  apply list_eq. intros i. destruct (decide (i < len)%nat) as [Hi | Hi].
  - rewrite !lookup_take_lt by done.
    destruct (H1 i ltac:(lia)) as (v & -> & Hv).
    destruct (H2 i ltac:(lia)) as (w & -> & Hw).
    f_equal. by eapply xor_at_fun.
  - by rewrite !lookup_take_ge by lia.
Qed.

(** The tag bytes depend on the first sixteen key bytes, the nonce and the
    length only. *)
Lemma tag_loop_deterministic k k' n len t t' t1 t2 :
  take 16 k = take 16 k' ->
  Mock.tag_loop 16 0 k n len t = Some t1 ->
  Mock.tag_loop 16 0 k' n len t' = Some t2 ->
  take 16 t1 = take 16 t2.
Proof.
  intros Hk (_ & _ & _ & H1)%tag_loop_spec (_ & _ & _ & H2)%tag_loop_spec.
  apply list_eq. intros i. destruct (decide (i < 16)%nat) as [Hi | Hi].
  - rewrite !lookup_take_lt by done.
    destruct (H1 i ltac:(lia)) as (v & -> & k1 & n1 & Hk1 & Hn1 & ->).
    destruct (H2 i ltac:(lia)) as (w & -> & k2 & n2 & Hk2 & Hn2 & ->).
    rewrite <- (lookup_take_lt k 16), Hk, lookup_take_lt in Hk1 by done.
    by simplify_eq.
  - by rewrite !lookup_take_ge by lia.
Qed.

(** * The claims *)

(** C1 (round trip, test double): when Seal succeeds on a 32-byte key, a
    12-byte nonce, a plaintext of bytes and any aad, Open on the ciphertext
    and the tag that Seal produced, with the same key, nonce and aad,
    succeeds and the bytes it writes are exactly the plaintext. *)
Theorem mock_round_trip (k n p c t o : buffer) key_len nonce_len aad aad_len
    ciphertext tag :
  length k = 32%nat -> length n = 12%nat -> bytes p ->
  (length p <= length o)%nat ->
  Mock.aesgcmsiv_encrypt (Some k) key_len (Some n) nonce_len
    (Some p) (Z.of_nat (length p)) aad aad_len (Some c) (Some t) =
    Some (AESGCMSIV_SUCCESS, ciphertext, tag) ->
  exists recovered,
    Mock.aesgcmsiv_decrypt (Some k) key_len (Some n) nonce_len
      ciphertext (Z.of_nat (length p)) aad aad_len tag (Some o) =
      Some (AESGCMSIV_SUCCESS, Some recovered) /\
    take (length p) recovered = p.
Proof.
  intros Hk Hn Hp Ho Hseal.
  apply mock_encrypt_inv in Hseal
    as [(Hin & _) | (_ & Hkl & Hnl & Haad & k' & n' & p' & c' & t' & c1 & t1 & H)].
  { by apply success_not_validation_error in Hin. }
  destruct H as (? & ? & ? & ? & ? & -> & -> & Hx & Ht). simplify_eq.
  rewrite Nat2Z.id in Hx.
  pose proof (xor_loop_spec _ _ _ _ _ _ _ Hx) as (Hlen & Hcap & _ & _).
  destruct (xor_loop_total (length p') 0 k' n' c1 o) as [p1 Hopen]; try lia.
  exists p1. split.
  - rewrite (mock_decrypt_run k' n' c1 t1 o _ _ _ aad aad_len p1 true);
      rewrite ?Nat2Z.id; try done.
    by eapply verify_sealed_tag.
  - rewrite (xor_loop_round_trip _ _ _ _ _ _ _ _ Hp Hx Hopen).
    by apply take_ge.
Qed.

Lemma mock_round_trip_witness :
  exists recovered,
    Mock.aesgcmsiv_decrypt (Some (zeros 32)) 32 (Some (zeros 12)) 12
      (Some hello) 5 None 0
      (Some [5; 5; 5; 5; 5; 5; 5; 5; 5; 5; 5; 5; 5; 5; 5; 5])
      (Some (zeros 5)) = Some (AESGCMSIV_SUCCESS, Some recovered) /\
    take 5 recovered = hello.
Proof.
  apply (mock_round_trip (zeros 32) (zeros 12) hello (zeros 5) (zeros 16)
           (zeros 5) 32 12 None 0).
  - reflexivity.
  - reflexivity.
  - unfold bytes, hello, byte_range. repeat constructor; lia.
  - simpl. lia.
  - reflexivity.
Defined.

(** C2, as amended (tamper detection, test double): after a successful Seal,
    one flipped bit in any of the sixteen tag bytes, in any of the twelve
    nonce bytes or in any of the first sixteen key bytes makes Open return
    [AESGCMSIV_ERROR_DECRYPT_FAILED]. *)
Theorem mock_tamper_detected (k n p c t o : buffer) key_len nonce_len
    aad aad_len (c1 t1 : buffer) (j : nat) (b : Z) :
  length k = 32%nat -> length n = 12%nat -> (length p <= length o)%nat ->
  0 <= b < 8 ->
  Mock.aesgcmsiv_encrypt (Some k) key_len (Some n) nonce_len
    (Some p) (Z.of_nat (length p)) aad aad_len (Some c) (Some t) =
    Some (AESGCMSIV_SUCCESS, Some c1, Some t1) ->
  ((j < 16)%nat -> exists out,
     Mock.aesgcmsiv_decrypt (Some k) key_len (Some n) nonce_len
       (Some c1) (Z.of_nat (length p)) aad aad_len
       (Some (flip_bit t1 j b)) (Some o) =
     Some (AESGCMSIV_ERROR_DECRYPT_FAILED, Some out)) /\
  ((j < 12)%nat -> exists out,
     Mock.aesgcmsiv_decrypt (Some k) key_len (Some (flip_bit n j b)) nonce_len
       (Some c1) (Z.of_nat (length p)) aad aad_len (Some t1) (Some o) =
     Some (AESGCMSIV_ERROR_DECRYPT_FAILED, Some out)) /\
  ((j < 16)%nat -> exists out,
     Mock.aesgcmsiv_decrypt (Some (flip_bit k j b)) key_len (Some n) nonce_len
       (Some c1) (Z.of_nat (length p)) aad aad_len (Some t1) (Some o) =
     Some (AESGCMSIV_ERROR_DECRYPT_FAILED, Some out)).
Proof.
  intros Hk Hn Ho Hb Hseal.
  apply mock_encrypt_inv in Hseal
    as [(Hin & _) | (_ & Hkl & Hnl & Haad & k' & n' & p' & c' & t' & c2 & t2 & H)].
  { by apply success_not_validation_error in Hin. }
  destruct H as (? & ? & ? & ? & ? & ? & ? & Hx & Ht). simplify_eq.
  rewrite Nat2Z.id in Hx.
  pose proof (xor_loop_spec _ _ _ _ _ _ _ Hx) as (Hlen & Hcap & _ & _).
  pose proof (tag_loop_spec _ _ _ _ _ _ _ Ht) as (Hlent & Hcapt & _ & Hin).
  assert (Hc2 : (Z.to_nat (Z.of_nat (length p')) <= length c2)%nat)
    by (rewrite Nat2Z.id; lia).
  assert (Ho' : (Z.to_nat (Z.of_nat (length p')) <= length o)%nat)
    by (rewrite Nat2Z.id; lia).
  split_and!; intros Hj.
  - destruct (Hin j ltac:(lia)) as (v & Hv & Hat).
    apply (mock_decrypt_rejects _ _ _ _ _ _ _ _ _ _ j (Z.lxor v (2 ^ b)) v);
      rewrite ?flip_bit_length; try done; try lia.
    + by apply flip_bit_lookup_eq.
    + apply lxor_pow2_neq. lia.
  - destruct (Hin j ltac:(lia)) as (v & Hv & kj & nj & Hkj & Hnj & ->).
    rewrite Nat.mod_small in Hnj by lia.
    apply (mock_decrypt_rejects _ _ _ _ _ _ _ _ _ _ j
             (Mock.tag_byte kj nj (Z.of_nat (length p')))
             (Mock.tag_byte kj (Z.lxor nj (2 ^ b)) (Z.of_nat (length p'))));
      rewrite ?flip_bit_length; try done; try lia.
    + exists kj, (Z.lxor nj (2 ^ b)). split_and!; try done.
      rewrite Nat.mod_small by lia. by apply flip_bit_lookup_eq.
    + intros Heq. symmetry in Heq. by apply tag_byte_flip_nonce in Heq.
  - destruct (Hin j ltac:(lia)) as (v & Hv & kj & nj & Hkj & Hnj & ->).
    apply (mock_decrypt_rejects _ _ _ _ _ _ _ _ _ _ j
             (Mock.tag_byte kj nj (Z.of_nat (length p')))
             (Mock.tag_byte (Z.lxor kj (2 ^ b)) nj (Z.of_nat (length p'))));
      rewrite ?flip_bit_length; try done; try lia.
    + exists (Z.lxor kj (2 ^ b)), nj. split_and!; try done.
      by apply flip_bit_lookup_eq.
    + intros Heq. symmetry in Heq. by apply tag_byte_flip_key in Heq.
Qed.

Lemma mock_tamper_detected_witness :
  (exists out,
     Mock.aesgcmsiv_decrypt (Some (zeros 32)) 32 (Some (zeros 12)) 12
       (Some hello) 5 None 0 (Some (flip_bit (replicate 16 5) 0 0))
       (Some (zeros 5)) =
     Some (AESGCMSIV_ERROR_DECRYPT_FAILED, Some out)) /\
  (exists out,
     Mock.aesgcmsiv_decrypt (Some (zeros 32)) 32
       (Some (flip_bit (zeros 12) 0 0)) 12
       (Some hello) 5 None 0 (Some (replicate 16 5)) (Some (zeros 5)) =
     Some (AESGCMSIV_ERROR_DECRYPT_FAILED, Some out)) /\
  (exists out,
     Mock.aesgcmsiv_decrypt (Some (flip_bit (zeros 32) 0 0)) 32
       (Some (zeros 12)) 12
       (Some hello) 5 None 0 (Some (replicate 16 5)) (Some (zeros 5)) =
     Some (AESGCMSIV_ERROR_DECRYPT_FAILED, Some out)).
Proof.
  destruct (mock_tamper_detected (zeros 32) (zeros 12) hello (zeros 5)
              (zeros 16) (zeros 5) 32 12 None 0 hello (replicate 16 5)
              0%nat 0) as (Htag & Hnonce & Hkey).
  - reflexivity.
  - reflexivity.
  - simpl. lia.
  - lia.
  - reflexivity.
  - split_and!; [apply Htag | apply Hnonce | apply Hkey]; lia.
Defined.

(** C2, as stated, fails: with the zero key and the zero nonce Seal turns
    "hello" into the ciphertext "hello" and the tag of sixteen bytes 5.
    Open still returns success when bit 0 of the first ciphertext byte is
    flipped, when bit 0 of the only aad byte is flipped, and when bit 0 of
    key byte 16 is flipped. *)
Lemma mock_tamper_undetected :
  Mock.aesgcmsiv_encrypt (Some (zeros 32)) 32 (Some (zeros 12)) 12
    (Some hello) 5 (Some [7]) 1 (Some (zeros 5)) (Some (zeros 16)) =
    Some (AESGCMSIV_SUCCESS, Some hello, Some (replicate 16 5)) /\
  Mock.aesgcmsiv_decrypt (Some (zeros 32)) 32 (Some (zeros 12)) 12
    (Some (flip_bit hello 0 0)) 5 (Some [7]) 1 (Some (replicate 16 5))
    (Some (zeros 5)) =
    Some (AESGCMSIV_SUCCESS, Some [105; 101; 108; 108; 111]) /\
  Mock.aesgcmsiv_decrypt (Some (zeros 32)) 32 (Some (zeros 12)) 12
    (Some hello) 5 (Some (flip_bit [7] 0 0)) 1 (Some (replicate 16 5))
    (Some (zeros 5)) =
    Some (AESGCMSIV_SUCCESS, Some hello) /\
  Mock.aesgcmsiv_decrypt (Some (flip_bit (zeros 32) 16 0)) 32
    (Some (zeros 12)) 12
    (Some hello) 5 (Some [7]) 1 (Some (replicate 16 5)) (Some (zeros 5)) =
    Some (AESGCMSIV_SUCCESS, Some hello) /\
  AESGCMSIV_SUCCESS <> AESGCMSIV_ERROR_DECRYPT_FAILED.
Proof. split_and!; by vm_compute. Qed.

(** C3 (validation precedence, both backends, Seal and Open): whenever the
    ordered checks of the specification name an error, each of the four
    entry points returns exactly that error; so a wrong key length together
    with a wrong nonce length gives [AESGCMSIV_ERROR_INVALID_KEY]. The
    three buffers are plaintext, ciphertext output and tag output for Seal,
    and ciphertext, tag and plaintext output for Open. *)
Theorem validation_precedence `{E : Production.EVP}
    (key : ptr) key_len (nonce : ptr) nonce_len (b1 : ptr) len
    (aad : ptr) aad_len (b2 b3 : ptr) (e : Z) :
  first_failing_check key key_len nonce nonce_len [b1; b2; b3] = Some e ->
  Mock.aesgcmsiv_encrypt key key_len nonce nonce_len b1 len aad aad_len b2 b3
    = Some (e, b2, b3) /\
  Mock.aesgcmsiv_decrypt key key_len nonce nonce_len b1 len aad aad_len b2 b3
    = Some (e, b3) /\
  Production.aesgcmsiv_encrypt key key_len nonce nonce_len b1 len aad aad_len
    b2 b3 = (e, b2, b3) /\
  Production.aesgcmsiv_decrypt key key_len nonce nonce_len b1 len aad aad_len
    b2 b3 = (e, b3).
Proof.
  unfold first_failing_check, Mock.aesgcmsiv_encrypt, Mock.aesgcmsiv_decrypt,
    Production.aesgcmsiv_encrypt, Production.aesgcmsiv_decrypt,
    Production.validate_encrypt_params, Production.validate_decrypt_params,
    AESGCMSIV_KEY_SIZE, AESGCMSIV_NONCE_SIZE.
  intros Hcheck.
  destruct (is_null key || negb (key_len =? 32));
    [by simplify_eq |].
  destruct (is_null nonce || negb (nonce_len =? 12));
    [by simplify_eq |].
  destruct b1, b2, b3; simpl in *; by simplify_eq.
Qed.

Lemma validation_precedence_witness :
  Mock.aesgcmsiv_encrypt (Some (zeros 16)) 16 (Some (zeros 8)) 8
    (Some hello) 5 None 0 (Some (zeros 5)) (Some (zeros 16)) =
    Some (AESGCMSIV_ERROR_INVALID_KEY, Some (zeros 5), Some (zeros 16)) /\
  Production.aesgcmsiv_encrypt (E := no_cipher) (Some (zeros 16)) 16
    (Some (zeros 8)) 8 (Some hello) 5 None 0 (Some (zeros 5))
    (Some (zeros 16)) =
    (AESGCMSIV_ERROR_INVALID_KEY, Some (zeros 5), Some (zeros 16)).
Proof.
  destruct (validation_precedence (E := no_cipher) (Some (zeros 16)) 16
              (Some (zeros 8)) 8 (Some hello) 5 None 0 (Some (zeros 5))
              (Some (zeros 16)) AESGCMSIV_ERROR_INVALID_KEY)
    as (Hme & _ & Hpe & _).
  - reflexivity.
  - split; [exact Hme | exact Hpe].
Defined.

(** C4 (empty aad): the test double accepts an absent aad and turns away an
    aad that is present with length zero, in Seal and in Open, with
    [AESGCMSIV_ERROR_INVALID_INPUT]; the validator of the adapter accepts
    both. Key: 32 zero bytes, nonce: 12 zero bytes, plaintext "hello". *)
Theorem mock_rejects_empty_aad :
  Mock.aesgcmsiv_encrypt (Some (zeros 32)) 32 (Some (zeros 12)) 12
    (Some hello) 5 None 0 (Some (zeros 5)) (Some (zeros 16)) =
    Some (AESGCMSIV_SUCCESS, Some hello, Some (replicate 16 5)) /\
  Mock.aesgcmsiv_encrypt (Some (zeros 32)) 32 (Some (zeros 12)) 12
    (Some hello) 5 (Some []) 0 (Some (zeros 5)) (Some (zeros 16)) =
    Some (AESGCMSIV_ERROR_INVALID_INPUT, Some (zeros 5), Some (zeros 16)) /\
  Mock.aesgcmsiv_decrypt (Some (zeros 32)) 32 (Some (zeros 12)) 12
    (Some hello) 5 None 0 (Some (replicate 16 5)) (Some (zeros 5)) =
    Some (AESGCMSIV_SUCCESS, Some hello) /\
  Mock.aesgcmsiv_decrypt (Some (zeros 32)) 32 (Some (zeros 12)) 12
    (Some hello) 5 (Some []) 0 (Some (replicate 16 5)) (Some (zeros 5)) =
    Some (AESGCMSIV_ERROR_INVALID_INPUT, Some (zeros 5)) /\
  Production.validate_encrypt_params (Some (zeros 32)) 32 (Some (zeros 12)) 12
    (Some hello) 5 (Some []) 0 (Some (zeros 5)) (Some (zeros 16)) =
    AESGCMSIV_SUCCESS /\
  Production.validate_decrypt_params (Some (zeros 32)) 32 (Some (zeros 12)) 12
    (Some hello) 5 (Some []) 0 (Some (replicate 16 5)) (Some (zeros 5)) =
    AESGCMSIV_SUCCESS.
Proof. split_and!; by vm_compute. Qed.

(** C5 (no write on a validation error, both backends, Seal and Open):
    whenever an entry point returns [AESGCMSIV_ERROR_INVALID_KEY],
    [AESGCMSIV_ERROR_INVALID_NONCE] or [AESGCMSIV_ERROR_INVALID_INPUT], the
    output buffers hold after the call what they held before it. *)
Theorem validation_error_writes_nothing `{E : Production.EVP}
    (key : ptr) key_len (nonce : ptr) nonce_len (b1 : ptr) len
    (aad : ptr) aad_len (b2 b3 : ptr) (code : Z) :
  code ∈ [AESGCMSIV_ERROR_INVALID_KEY; AESGCMSIV_ERROR_INVALID_NONCE;
          AESGCMSIV_ERROR_INVALID_INPUT] ->
  (forall c' t',
     Mock.aesgcmsiv_encrypt key key_len nonce nonce_len b1 len aad aad_len
       b2 b3 = Some (code, c', t') -> c' = b2 /\ t' = b3) /\
  (forall p',
     Mock.aesgcmsiv_decrypt key key_len nonce nonce_len b1 len aad aad_len
       b2 b3 = Some (code, p') -> p' = b3) /\
  (forall c' t',
     Production.aesgcmsiv_encrypt key key_len nonce nonce_len b1 len aad
       aad_len b2 b3 = (code, c', t') -> c' = b2 /\ t' = b3) /\
  (forall p',
     Production.aesgcmsiv_decrypt key key_len nonce nonce_len b1 len aad
       aad_len b2 b3 = (code, p') -> p' = b3).
Proof.
  intros Hcode. split_and!.
  - intros c' t' H. apply mock_encrypt_inv in H as [(_ & ? & ?) | (-> & _)];
      [done |]. by apply success_not_validation_error in Hcode.
  - intros p' H.
    apply mock_decrypt_inv in H
      as [(_ & ?) | (_ & _ & _ & ? & ? & ? & ? & ? & ? & ok & H)]; [done |].
    destruct H as (_ & _ & _ & _ & _ & _ & _ & _ & ->).
    destruct ok; [by apply success_not_validation_error in Hcode |].
    by apply decrypt_failed_not_validation_error in Hcode.
  - intros c' t' H. apply validation_error_codes in Hcode.
    apply production_encrypt_inv in H as [(_ & _ & ? & ?) | [-> | ->]];
      [done | |]; unfold AESGCMSIV_ERROR_INTERNAL, AESGCMSIV_SUCCESS in Hcode;
      lia.
  - intros p' H. apply validation_error_codes in Hcode.
    apply production_decrypt_inv in H as [(_ & _ & ?) | H]; [done |].
    rewrite !elem_of_cons, elem_of_nil in H.
    unfold AESGCMSIV_ERROR_INTERNAL, AESGCMSIV_ERROR_INVALID_TAG,
      AESGCMSIV_ERROR_DECRYPT_FAILED, AESGCMSIV_SUCCESS in H. lia.
Qed.

Lemma validation_error_writes_nothing_witness :
  match Mock.aesgcmsiv_encrypt None 32 (Some (zeros 12)) 12 (Some hello) 5
          None 0 (Some [1; 2; 3; 4; 5]) (Some (zeros 16)) with
  | Some (_, c', t') => c' = Some [1; 2; 3; 4; 5] /\ t' = Some (zeros 16)
  | None => False
  end.
Proof.
  assert (Hcode : AESGCMSIV_ERROR_INVALID_KEY ∈
    [AESGCMSIV_ERROR_INVALID_KEY; AESGCMSIV_ERROR_INVALID_NONCE;
     AESGCMSIV_ERROR_INVALID_INPUT]) by apply list_elem_of_here.
  destruct (validation_error_writes_nothing (E := no_cipher) None 32
              (Some (zeros 12)) 12 (Some hello) 5 None 0
              (Some [1; 2; 3; 4; 5]) (Some (zeros 16))
              AESGCMSIV_ERROR_INVALID_KEY Hcode) as (Hme & _).
  simpl. apply Hme. reflexivity.
Defined.

(** C6 (determinism, test double): two calls of Seal with the same key,
    nonce, plaintext and aad return the same code, and on success they have
    written the same ciphertext bytes and the same sixteen tag bytes,
    whatever the two pairs of output buffers held before. *)
Theorem mock_seal_deterministic (key : ptr) key_len (nonce : ptr) nonce_len
    (plaintext : ptr) len (aad : ptr) aad_len (c t c' t' : buffer)
    code1 code2 (c1 t1 c2 t2 : buffer) :
  Mock.aesgcmsiv_encrypt key key_len nonce nonce_len plaintext len aad aad_len
    (Some c) (Some t) = Some (code1, Some c1, Some t1) ->
  Mock.aesgcmsiv_encrypt key key_len nonce nonce_len plaintext len aad aad_len
    (Some c') (Some t') = Some (code2, Some c2, Some t2) ->
  code1 = code2 /\
  (code1 = AESGCMSIV_SUCCESS ->
   take (Z.to_nat len) c1 = take (Z.to_nat len) c2 /\
   take 16 t1 = take 16 t2).
Proof.
  unfold Mock.aesgcmsiv_encrypt. intros H1 H2.
  destruct (is_null key || negb (key_len =? AESGCMSIV_KEY_SIZE));
    [by simplify_eq |].
  destruct (is_null nonce || negb (nonce_len =? AESGCMSIV_NONCE_SIZE));
    [by simplify_eq |].
  destruct plaintext as [p |]; simpl in H1, H2; [| by simplify_eq].
  destruct (negb (is_null aad) && (aad_len =? 0)); [by simplify_eq |].
  destruct key as [k |]; [| done]. destruct nonce as [n |]; [| done].
  simpl in H1, H2.
  change (Z.to_nat AESGCMSIV_TAG_SIZE) with 16%nat in H1, H2.
  destruct (Mock.xor_loop _ _ _ _ _ c) as [x1 |] eqn:Hx1; [| done].
  destruct (Mock.xor_loop _ _ _ _ _ c') as [x2 |] eqn:Hx2; [| done].
  simpl in H1, H2.
  destruct (Mock.tag_loop _ _ _ _ _ t) as [y1 |] eqn:Hy1; [| done].
  destruct (Mock.tag_loop _ _ _ _ _ t') as [y2 |] eqn:Hy2; [| done].
  simpl in H1, H2. simplify_eq. split; [done |]. intros _. split.
  - by eapply xor_loop_deterministic.
  - by eapply tag_loop_deterministic.
Qed.

Lemma mock_seal_deterministic_witness :
  AESGCMSIV_SUCCESS = AESGCMSIV_SUCCESS /\
  (AESGCMSIV_SUCCESS = AESGCMSIV_SUCCESS ->
   take (Z.to_nat 5) [105; 103; 111; 104; 106; 9] =
   take (Z.to_nat 5) [105; 103; 111; 104; 106] /\
   take 16 (seqZ 6 16) = take 16 (seqZ 6 16 ++ [9])).
Proof.
  apply (mock_seal_deterministic (Some (seqZ 1 32)) 32 (Some (zeros 12)) 12
           (Some hello) 5 None 0 (replicate 6 9) (zeros 16) (zeros 5)
           (replicate 17 9)); by vm_compute.
Defined.



(** X16 (length preservation in the test double): a successful Seal of
    the test double writes the transform of the plaintext into the first
    [plaintext_len] bytes of the ciphertext buffer and leaves every later
    byte as it was; a successful Open does the same with [ciphertext_len]
    and the plaintext buffer. *)
Theorem mock_length_preserved (k n src dst : buffer) key_len nonce_len len
    (aad : ptr) aad_len (t : buffer) :
  0 <= len ->
  (forall c1 t1,
     Mock.aesgcmsiv_encrypt (Some k) key_len (Some n) nonce_len (Some src) len
       aad aad_len (Some dst) (Some t) =
       Some (AESGCMSIV_SUCCESS, Some c1, t1) ->
     Z.of_nat (length (take (Z.to_nat len) c1)) = len /\
     (forall j, (j < Z.to_nat len)%nat ->
        exists v, c1 !! j = Some v /\ xor_at k n src j v) /\
     drop (Z.to_nat len) c1 = drop (Z.to_nat len) dst) /\
  (forall p1,
     Mock.aesgcmsiv_decrypt (Some k) key_len (Some n) nonce_len (Some src) len
       aad aad_len (Some t) (Some dst) = Some (AESGCMSIV_SUCCESS, Some p1) ->
     Z.of_nat (length (take (Z.to_nat len) p1)) = len /\
     (forall j, (j < Z.to_nat len)%nat ->
        exists v, p1 !! j = Some v /\ xor_at k n src j v) /\
     drop (Z.to_nat len) p1 = drop (Z.to_nat len) dst).
Proof.
  intros Hlen.
  assert (Hloop : forall out,
    Mock.xor_loop (Z.to_nat len) 0 k n src dst = Some out ->
    Z.of_nat (length (take (Z.to_nat len) out)) = len /\
    (forall j, (j < Z.to_nat len)%nat ->
       exists v, out !! j = Some v /\ xor_at k n src j v) /\
    drop (Z.to_nat len) out = drop (Z.to_nat len) dst).
  { intros out (Hl & Hcap & Hout & Hin)%xor_loop_spec. split_and!.
    - rewrite length_take. lia.
    - intros j Hj. apply Hin. lia.
    - by apply loop_untouched_tail. }
  split.
  - intros c1 t1 H.
    apply mock_encrypt_inv in H
      as [(Hin & _) | (_ & _ & _ & _ & ? & ? & ? & ? & ? & ? & ? & H)].
    { by apply success_not_validation_error in Hin. }
    destruct H as (? & ? & ? & ? & ? & ? & ? & Hx & _). simplify_eq.
    by apply Hloop.
  - intros p1 H.
    apply mock_decrypt_inv in H
      as [(Hin & _) | (_ & _ & _ & ? & ? & ? & ? & ? & ? & ok & H)].
    { by apply success_not_validation_error in Hin. }
    destruct H as (? & ? & ? & ? & ? & ? & Hx & _). simplify_eq.
    by apply Hloop.
Qed.

Lemma mock_length_preserved_witness :
  Z.of_nat (length (take (Z.to_nat 5) [105; 103; 111; 104; 106; 9])) = 5 /\
  (forall j, (j < Z.to_nat 5)%nat ->
     exists v, [105; 103; 111; 104; 106; 9] !! j = Some v /\
               xor_at (seqZ 1 32) (zeros 12) hello j v) /\
  drop (Z.to_nat 5) [105; 103; 111; 104; 106; 9] =
  drop (Z.to_nat 5) (replicate 6 9).
Proof.
  destruct (mock_length_preserved (seqZ 1 32) (zeros 12) hello (replicate 6 9)
              32 12 5 None 0 (zeros 16)) as (Hseal & _).
  - lia.
  - apply (Hseal [105; 103; 111; 104; 106; 9] (Some (seqZ 6 16))).
    by vm_compute.
Defined.

(** C8 (length preservation) fails in the adapter: the data length reaches
    OpenSSL as [static_cast<int>(len)] only. With a declared length of
    2^32 + 5 and an OpenSSL that moves exactly the [inl] bytes it is asked
    for, Seal and Open both return success after writing five bytes: the
    output buffer keeps every byte from index 5 on, although the declared
    length is 2^32 + 5. *)
Theorem production_length_not_preserved (p c t : buffer) :
  cast_int (2 ^ 32 + 5) = 5 /\
  Production.aesgcmsiv_encrypt (E := inl_engine) (Some (zeros 32)) 32
    (Some (zeros 12)) 12 (Some p) (2 ^ 32 + 5) None 0 (Some c) (Some t) =
    (AESGCMSIV_SUCCESS, Some (take 5 p ++ drop 5 c), Some t) /\
  Production.aesgcmsiv_decrypt (E := inl_engine) (Some (zeros 32)) 32
    (Some (zeros 12)) 12 (Some p) (2 ^ 32 + 5) None 0 (Some t) (Some c) =
    (AESGCMSIV_SUCCESS, Some (take 5 p ++ drop 5 c)).
Proof. split_and!; reflexivity. Qed.

(** C9 (test double, Open writes before it verifies): whenever Open returns
    [AESGCMSIV_ERROR_DECRYPT_FAILED], the first [ciphertext_len] bytes of
    the plaintext buffer hold the transform of the ciphertext it was given,
    and the later bytes are as they were. *)
Theorem mock_decrypt_failed_overwrites (key : ptr) key_len (nonce : ptr)
    nonce_len (c : buffer) len (aad : ptr) aad_len (tag : ptr) (o : buffer)
    (p' : ptr) :
  Mock.aesgcmsiv_decrypt key key_len nonce nonce_len (Some c) len aad aad_len
    tag (Some o) = Some (AESGCMSIV_ERROR_DECRYPT_FAILED, p') ->
  exists k n p1,
    key = Some k /\ nonce = Some n /\ p' = Some p1 /\
    length p1 = length o /\
    (forall j, (j < Z.to_nat len)%nat ->
       exists v, p1 !! j = Some v /\ xor_at k n c j v) /\
    drop (Z.to_nat len) p1 = drop (Z.to_nat len) o.
Proof.
  intros H.
  apply mock_decrypt_inv in H
    as [(Hin & _) | (_ & _ & _ & k & n & c' & t & o' & p1 & ok & H)].
  { by apply decrypt_failed_not_validation_error in Hin. }
  destruct H as (-> & -> & ? & _ & ? & -> & Hx & _). simplify_eq.
  apply xor_loop_spec in Hx as (Hl & _ & Hout & Hin).
  exists k, n, p1. split_and!; try done.
  - intros j Hj. apply Hin. lia.
  - by apply loop_untouched_tail.
Qed.

Lemma mock_decrypt_failed_overwrites_witness :
  exists k n p1,
    Some (seqZ 1 32) = Some k /\ Some (zeros 12) = Some n /\
    Some [104; 101; 108; 108; 111; 9] = Some p1 /\
    length p1 = length (replicate 6 9) /\
    (forall j, (j < Z.to_nat 5)%nat ->
       exists v, p1 !! j = Some v /\ xor_at k n [105; 103; 111; 104; 106] j v) /\
    drop (Z.to_nat 5) p1 = drop (Z.to_nat 5) (replicate 6 9).
Proof.
  apply (mock_decrypt_failed_overwrites (Some (seqZ 1 32)) 32
           (Some (zeros 12)) 12 [105; 103; 111; 104; 106] 5 None 0
           (Some (zeros 16)) (replicate 6 9)).
  by vm_compute.
Defined.

(** C10 (test double, what the tag depends on): two successful calls of
    Seal whose keys agree on their first sixteen bytes, with the same nonce
    and the same plaintext length, write the same sixteen tag bytes,
    whatever the plaintexts, the later key bytes and the aads are. *)
Theorem mock_tag_ignores_plaintext (k k' n p p' c c' t t' : buffer)
    key_len nonce_len len (aad aad' : ptr) aad_len aad_len'
    (c1 c2 : ptr) (t1 t2 : buffer) :
  take 16 k = take 16 k' ->
  Mock.aesgcmsiv_encrypt (Some k) key_len (Some n) nonce_len (Some p) len
    aad aad_len (Some c) (Some t) = Some (AESGCMSIV_SUCCESS, c1, Some t1) ->
  Mock.aesgcmsiv_encrypt (Some k') key_len (Some n) nonce_len (Some p') len
    aad' aad_len' (Some c') (Some t') =
    Some (AESGCMSIV_SUCCESS, c2, Some t2) ->
  take 16 t1 = take 16 t2.
Proof.
  intros Hk H1 H2.
  apply mock_encrypt_inv in H1
    as [(Hin & _) | (_ & _ & _ & _ & ? & ? & ? & ? & ? & ? & ? & H1)].
  { by apply success_not_validation_error in Hin. }
  apply mock_encrypt_inv in H2
    as [(Hin & _) | (_ & _ & _ & _ & ? & ? & ? & ? & ? & ? & ? & H2)].
  { by apply success_not_validation_error in Hin. }
  destruct H1 as (? & ? & ? & ? & ? & ? & ? & _ & Ht1).
  destruct H2 as (? & ? & ? & ? & ? & ? & ? & _ & Ht2).
  simplify_eq. by eapply tag_loop_deterministic.
Qed.

Lemma mock_tag_ignores_plaintext_witness :
  take 16 (seqZ 6 16) = take 16 (seqZ 6 16 ++ [9]).
Proof.
  apply (mock_tag_ignores_plaintext (seqZ 1 32) (seqZ 1 16 ++ zeros 16)
           (zeros 12) hello [1; 2; 3; 4; 5] (zeros 5) (zeros 5) (zeros 16)
           (replicate 17 9) 32 12 5 None (Some [7]) 0 1
           (Some [105; 103; 111; 104; 106]) (Some [0; 0; 0; 0; 0])
           (seqZ 6 16) (seqZ 6 16 ++ [9])); by vm_compute.
Defined.

(** * Further properties of the test double *)

Lemma tag_byte_len_eq k n len len' :
  len' mod 256 = len mod 256 -> Mock.tag_byte k n len' = Mock.tag_byte k n len.
Proof.
  intros H. rewrite !tag_byte_mod.
  rewrite (Z.add_mod (k + n) len'), (Z.add_mod (k + n) len) by lia.
  by rewrite H.
Qed.

Lemma tag_byte_len_neq k n len len' :
  len' mod 256 <> len mod 256 -> Mock.tag_byte k n len' <> Mock.tag_byte k n len.
Proof.
  intros H Heq. apply H. rewrite !tag_byte_mod in Heq.
  transitivity ((k + n + len' - (k + n)) mod 256); [f_equal; lia |].
  rewrite Zminus_mod, Heq, <- Zminus_mod. f_equal. lia.
Qed.

(** X1 (memory safety of the test double): when every non-null pointer
    points to at least the bytes its caller declares (key_len, nonce_len,
    the data length for both data buffers, 16 for the tag), Seal and Open
    stay inside the regions for every combination of arguments: the checks
    stop every call whose key or nonce is shorter than the loops read. *)
Theorem mock_memory_safe (key : ptr) key_len (nonce : ptr) nonce_len
    (data : ptr) len (aad : ptr) aad_len (out tag : ptr) :
  region_ok key (Z.to_nat key_len) -> region_ok nonce (Z.to_nat nonce_len) ->
  region_ok data (Z.to_nat len) -> region_ok out (Z.to_nat len) ->
  region_ok tag 16 ->
  is_Some (Mock.aesgcmsiv_encrypt key key_len nonce nonce_len data len
             aad aad_len out tag) /\
  is_Some (Mock.aesgcmsiv_decrypt key key_len nonce nonce_len data len
             aad aad_len tag out).
Proof.
  intros Hk Hn Hd Ho Ht.
  unfold Mock.aesgcmsiv_encrypt, Mock.aesgcmsiv_decrypt.
  destruct key as [k |], (Z.eqb_spec key_len AESGCMSIV_KEY_SIZE) as [-> |];
    simpl; try (split; by eexists).
  destruct nonce as [n |],
    (Z.eqb_spec nonce_len AESGCMSIV_NONCE_SIZE) as [-> |];
    simpl; try (split; by eexists).
  destruct data as [d |], out as [o |], tag as [t |];
    simpl; try (split; by eexists).
  destruct (negb (is_null aad) && (aad_len =? 0)); [split; by eexists |].
  simpl in Hk, Hn, Hd, Ho, Ht.
  change (Z.to_nat AESGCMSIV_KEY_SIZE) with 32%nat in Hk.
  change (Z.to_nat AESGCMSIV_NONCE_SIZE) with 12%nat in Hn.
  change (Z.to_nat AESGCMSIV_TAG_SIZE) with 16%nat.
  destruct (xor_loop_total (Z.to_nat len) 0 k n d o) as [x Hx]; try lia.
  destruct (tag_loop_total 16 0 k n len t) as [y Hy]; try lia.
  destruct (verify_loop_total 16 0 k n len t) as [ok Hok]; try lia.
  rewrite Hx. simpl. rewrite Hy, Hok. simpl.
  split; [by eexists |]. destruct ok; by eexists.
Qed.

Lemma mock_memory_safe_witness :
  is_Some (Mock.aesgcmsiv_encrypt (Some (zeros 32)) 32 (Some (zeros 12)) 12
             (Some hello) 5 (Some [7]) 1 (Some (zeros 8)) (Some (zeros 16))) /\
  is_Some (Mock.aesgcmsiv_decrypt (Some (zeros 32)) 32 (Some (zeros 12)) 12
             (Some hello) 5 (Some [7]) 1 (Some (zeros 16)) (Some (zeros 8))).
Proof.
  apply (mock_memory_safe (Some (zeros 32)) 32 (Some (zeros 12)) 12
           (Some hello) 5 (Some [7]) 1 (Some (zeros 8)) (Some (zeros 16)));
    simpl; lia.
Defined.

(** X2 (when Seal succeeds): with regions as large as declared, the test
    double's Seal returns success exactly when the key is non-null with
    key_len 32, the nonce is non-null with nonce_len 12, the plaintext and
    both output pointers are non-null, and the aad is absent or has a
    non-zero declared length. *)
Theorem mock_seal_succeeds_iff (key : ptr) key_len (nonce : ptr) nonce_len
    (plaintext : ptr) len (aad : ptr) aad_len (out tag : ptr) :
  region_ok key (Z.to_nat key_len) -> region_ok nonce (Z.to_nat nonce_len) ->
  region_ok plaintext (Z.to_nat len) -> region_ok out (Z.to_nat len) ->
  region_ok tag 16 ->
  (exists c1 t1,
     Mock.aesgcmsiv_encrypt key key_len nonce nonce_len plaintext len
       aad aad_len out tag = Some (AESGCMSIV_SUCCESS, c1, t1)) <->
  (is_Some key /\ key_len = 32 /\ is_Some nonce /\ nonce_len = 12 /\
   is_Some plaintext /\ is_Some out /\ is_Some tag /\
   aad_accepted aad aad_len).
Proof.
  intros Hk Hn Hd Ho Ht. split.
  - intros (c1 & t1 & H).
    apply mock_encrypt_inv in H
      as [(Hin & _) | (_ & Hkl & Hnl & Haad & ? & ? & ? & ? & ? & ? & ? & H)].
    { by apply success_not_validation_error in Hin. }
    destruct H as (-> & -> & -> & -> & -> & _). split_and!; by eauto.
  - intros ([k ->] & -> & [n ->] & -> & [p ->] & [o ->] & [t ->] & Haad).
    simpl in Hk, Hn, Hd, Ho, Ht.
    destruct (xor_loop_total (Z.to_nat len) 0 k n p o) as [c1 Hx]; try lia.
    destruct (tag_loop_total 16 0 k n len t) as [t1 Htag]; try lia.
    exists (Some c1), (Some t1). by apply mock_encrypt_run.
Qed.

Lemma mock_seal_succeeds_iff_witness :
  (exists c1 t1,
     Mock.aesgcmsiv_encrypt (Some (zeros 32)) 32 (Some (zeros 12)) 12
       (Some hello) 5 None 0 (Some (zeros 5)) (Some (zeros 16)) =
     Some (AESGCMSIV_SUCCESS, c1, t1)) <->
  (is_Some (Some (zeros 32)) /\ 32 = 32 /\ is_Some (Some (zeros 12)) /\
   12 = 12 /\ is_Some (Some hello) /\ is_Some (Some (zeros 5)) /\
   is_Some (Some (zeros 16)) /\ aad_accepted None 0).
Proof.
  apply (mock_seal_succeeds_iff (Some (zeros 32)) 32 (Some (zeros 12)) 12
           (Some hello) 5 None 0 (Some (zeros 5)) (Some (zeros 16)));
    simpl; lia.
Defined.

(** X3 (return codes of the test double): Seal returns success,
    InvalidKey, InvalidNonce or InvalidInput and nothing else; Open returns
    one of these or DecryptFailed. Neither ever returns InvalidTag or
    Internal. *)
Theorem mock_return_codes (key : ptr) key_len (nonce : ptr) nonce_len
    (data : ptr) len (aad : ptr) aad_len (b2 b3 : ptr) :
  (forall code c' t',
     Mock.aesgcmsiv_encrypt key key_len nonce nonce_len data len aad aad_len
       b2 b3 = Some (code, c', t') ->
     code ∈ [AESGCMSIV_SUCCESS; AESGCMSIV_ERROR_INVALID_KEY;
             AESGCMSIV_ERROR_INVALID_NONCE; AESGCMSIV_ERROR_INVALID_INPUT]) /\
  (forall code p',
     Mock.aesgcmsiv_decrypt key key_len nonce nonce_len data len aad aad_len
       b2 b3 = Some (code, p') ->
     code ∈ [AESGCMSIV_SUCCESS; AESGCMSIV_ERROR_INVALID_KEY;
             AESGCMSIV_ERROR_INVALID_NONCE; AESGCMSIV_ERROR_INVALID_INPUT;
             AESGCMSIV_ERROR_DECRYPT_FAILED]).
Proof.
  split.
  - intros code c' t' H.
    apply mock_encrypt_inv in H as [(Hin & _) | (-> & _)].
    + by apply list_elem_of_further.
    + apply list_elem_of_here.
  - intros code p' H.
    apply mock_decrypt_inv in H
      as [(Hin & _) | (_ & _ & _ & ? & ? & ? & ? & ? & ? & ok & H)].
    + apply list_elem_of_further.
      rewrite !elem_of_cons in Hin. rewrite !elem_of_cons. tauto.
    + destruct H as (_ & _ & _ & _ & _ & _ & _ & _ & ->).
      destruct ok; repeat first
        [apply list_elem_of_here | apply list_elem_of_further].
Qed.

Lemma mock_return_codes_witness :
  AESGCMSIV_ERROR_DECRYPT_FAILED ∈
    [AESGCMSIV_SUCCESS; AESGCMSIV_ERROR_INVALID_KEY;
     AESGCMSIV_ERROR_INVALID_NONCE; AESGCMSIV_ERROR_INVALID_INPUT;
     AESGCMSIV_ERROR_DECRYPT_FAILED].
Proof.
  destruct (mock_return_codes (Some (zeros 32)) 32 (Some (zeros 12)) 12
              (Some hello) 5 None 0 (Some (zeros 16)) (Some (zeros 5)))
    as (_ & Hopen).
  apply (Hopen AESGCMSIV_ERROR_DECRYPT_FAILED (Some hello)).
  by vm_compute.
Defined.

(** X4 (the tag in closed form): a successful Seal of the test double
    leaves the tag buffer with [(key[j] + nonce[j mod 12] + plaintext_len)
    mod 256] at each index [j < 16]; the later bytes and the size of the
    buffer are as before. The wrap of the [size_t] sum never shows. *)
Theorem mock_seal_tag_bytes (k n p c t : buffer) key_len nonce_len len
    (aad : ptr) aad_len (c1 : ptr) (t1 : buffer) :
  Mock.aesgcmsiv_encrypt (Some k) key_len (Some n) nonce_len (Some p) len
    aad aad_len (Some c) (Some t) = Some (AESGCMSIV_SUCCESS, c1, Some t1) ->
  length t1 = length t /\
  drop 16 t1 = drop 16 t /\
  forall j, (j < 16)%nat ->
    exists kj nj,
      k !! j = Some kj /\ n !! (j mod 12)%nat = Some nj /\
      t1 !! j = Some ((kj + nj + len) mod 256).
Proof.
  intros H.
  apply mock_encrypt_inv in H
    as [(Hin & _) | (_ & _ & _ & _ & ? & ? & ? & ? & ? & ? & ? & H)].
  { by apply success_not_validation_error in Hin. }
  destruct H as (? & ? & ? & ? & ? & ? & ? & _ & Ht). simplify_eq.
  apply tag_loop_spec in Ht as (Hlen & _ & Hout & Hin).
  split_and!; [done | by apply loop_untouched_tail |].
  intros j Hj. destruct (Hin j ltac:(lia)) as (v & Hv & kj & nj & ? & ? & ->).
  exists kj, nj. by rewrite <- tag_byte_mod.
Qed.

Lemma mock_seal_tag_bytes_witness :
  length (seqZ 6 16 ++ [9]) = length (replicate 17 9) /\
  drop 16 (seqZ 6 16 ++ [9]) = drop 16 (replicate 17 9) /\
  forall j, (j < 16)%nat ->
    exists kj nj,
      seqZ 1 32 !! j = Some kj /\ zeros 12 !! (j mod 12)%nat = Some nj /\
      (seqZ 6 16 ++ [9]) !! j = Some ((kj + nj + 5) mod 256).
Proof.
  apply (mock_seal_tag_bytes (seqZ 1 32) (zeros 12) hello (zeros 5)
           (replicate 17 9) 32 12 5 None 0 (Some [105; 103; 111; 104; 106])).
  by vm_compute.
Defined.

(** X5 (Open looks at the declared length modulo 256 only): after a
    successful Seal of [len] bytes, Open accepts the sealed tag for any
    ciphertext bytes whatsoever and any declared length congruent to [len]
    modulo 256, for instance a ciphertext cut or extended by 256 bytes. *)
Theorem mock_open_accepts_congruent_length (k n p c t o c2 : buffer)
    key_len nonce_len len len' (aad : ptr) aad_len (c1 : ptr) (t1 : buffer) :
  length k = 32%nat -> length n = 12%nat ->
  len' mod 256 = len mod 256 ->
  (Z.to_nat len' <= length c2)%nat -> (Z.to_nat len' <= length o)%nat ->
  Mock.aesgcmsiv_encrypt (Some k) key_len (Some n) nonce_len (Some p) len
    aad aad_len (Some c) (Some t) = Some (AESGCMSIV_SUCCESS, c1, Some t1) ->
  exists out,
    Mock.aesgcmsiv_decrypt (Some k) key_len (Some n) nonce_len (Some c2) len'
      aad aad_len (Some t1) (Some o) = Some (AESGCMSIV_SUCCESS, Some out).
Proof.
  intros Hk Hn Hmod Hc2 Ho Hseal.
  apply mock_encrypt_inv in Hseal
    as [(Hin & _) | (_ & Hkl & Hnl & Haad & k' & n' & ? & ? & ? & ? & t' & H)].
  { by apply success_not_validation_error in Hin. }
  destruct H as (? & ? & ? & ? & ? & ? & ? & _ & Ht). simplify_eq.
  destruct (xor_loop_total (Z.to_nat len') 0 k' n' c2 o) as [out Hx]; try lia.
  exists out.
  rewrite (mock_decrypt_run k' n' c2 t' o _ _ _ aad aad_len out true);
    try done.
  apply tag_loop_spec in Ht as (_ & _ & _ & Hin).
  apply verify_loop_true. intros j Hj.
  destruct (Hin j Hj) as (v & Hv & kj & nj & ? & ? & ->).
  exists (Mock.tag_byte kj nj len). split; [done |].
  exists kj, nj. split_and!; try done. symmetry. by apply tag_byte_len_eq.
Qed.

Lemma mock_open_accepts_congruent_length_witness :
  exists out,
    Mock.aesgcmsiv_decrypt (Some (zeros 32)) 32 (Some (zeros 12)) 12
      (Some (replicate 261 1)) 261 None 0 (Some (replicate 16 5))
      (Some (zeros 261)) = Some (AESGCMSIV_SUCCESS, Some out).
Proof.
  apply (mock_open_accepts_congruent_length (zeros 32) (zeros 12) hello
           (zeros 5) (zeros 16) (zeros 261) (replicate 261 1) 32 12 5 261
           None 0 (Some hello) (replicate 16 5)); by vm_compute.
Defined.

(** X6 (a wrong declared length is caught otherwise): after a successful
    Seal of [len] bytes, Open with the sealed tag and a declared length
    that is not congruent to [len] modulo 256 returns DecryptFailed. *)
Theorem mock_open_rejects_other_length (k n p c t o c2 : buffer)
    key_len nonce_len len len' (aad : ptr) aad_len (c1 : ptr) (t1 : buffer) :
  length k = 32%nat -> length n = 12%nat ->
  len' mod 256 <> len mod 256 ->
  (Z.to_nat len' <= length c2)%nat -> (Z.to_nat len' <= length o)%nat ->
  Mock.aesgcmsiv_encrypt (Some k) key_len (Some n) nonce_len (Some p) len
    aad aad_len (Some c) (Some t) = Some (AESGCMSIV_SUCCESS, c1, Some t1) ->
  exists out,
    Mock.aesgcmsiv_decrypt (Some k) key_len (Some n) nonce_len (Some c2) len'
      aad aad_len (Some t1) (Some o) =
    Some (AESGCMSIV_ERROR_DECRYPT_FAILED, Some out).
Proof.
  intros Hk Hn Hmod Hc2 Ho Hseal.
  apply mock_encrypt_inv in Hseal
    as [(Hin & _) | (_ & Hkl & Hnl & Haad & k' & n' & ? & ? & ? & ? & t' & H)].
  { by apply success_not_validation_error in Hin. }
  destruct H as (? & ? & ? & ? & ? & ? & ? & _ & Ht). simplify_eq.
  apply tag_loop_spec in Ht as (Hlen & Hcap & _ & Hin).
  destruct (Hin 0%nat ltac:(lia)) as (v & Hv & kj & nj & Hkj & Hnj & ->).
  apply (mock_decrypt_rejects _ _ _ _ _ _ _ _ _ _ 0%nat
           (Mock.tag_byte kj nj len) (Mock.tag_byte kj nj len'));
    try done; try lia.
  - by exists kj, nj.
  - intros Heq. symmetry in Heq. by apply tag_byte_len_neq in Heq.
Qed.

Lemma mock_open_rejects_other_length_witness :
  exists out,
    Mock.aesgcmsiv_decrypt (Some (zeros 32)) 32 (Some (zeros 12)) 12
      (Some hello) 4 None 0 (Some (replicate 16 5)) (Some (zeros 5)) =
    Some (AESGCMSIV_ERROR_DECRYPT_FAILED, Some out).
Proof.
  apply (mock_open_rejects_other_length (zeros 32) (zeros 12) hello
           (zeros 5) (zeros 16) (zeros 5) hello 32 12 5 4 None 0
           (Some hello) (replicate 16 5)); try by vm_compute.
  all: simpl; lia.
Defined.

(** X7 (round trip in the other direction): when Open of the test double
    succeeds on a ciphertext of bytes and a tag, Seal of the plaintext it
    wrote, with the same key, nonce and aad, succeeds and writes that
    ciphertext and the sixteen bytes of that tag again. *)
Theorem mock_open_then_seal (k n c t o c' t' : buffer) key_len nonce_len
    (aad : ptr) aad_len (p1 : buffer) :
  length k = 32%nat -> length n = 12%nat -> bytes c ->
  (length c <= length c')%nat -> (16 <= length t')%nat ->
  Mock.aesgcmsiv_decrypt (Some k) key_len (Some n) nonce_len
    (Some c) (Z.of_nat (length c)) aad aad_len (Some t) (Some o) =
    Some (AESGCMSIV_SUCCESS, Some p1) ->
  exists c1 t1,
    Mock.aesgcmsiv_encrypt (Some k) key_len (Some n) nonce_len
      (Some p1) (Z.of_nat (length c)) aad aad_len (Some c') (Some t') =
      Some (AESGCMSIV_SUCCESS, Some c1, Some t1) /\
    take (length c) c1 = c /\
    take 16 t1 = take 16 t.
Proof.
  intros Hk Hn Hc Hc' Ht' Hopen.
  apply mock_decrypt_inv in Hopen
    as [(Hin & _) | (Hkl & Hnl & Haad & k0 & n0 & c0 & t0 & o0 & p0 & ok & H)].
  { by apply success_not_validation_error in Hin. }
  destruct H as (? & ? & ? & ? & ? & ? & Hx & Hv & Hcode). simplify_eq.
  destruct ok; [| done]. rewrite Nat2Z.id in Hx.
  pose proof (xor_loop_spec _ _ _ _ _ _ _ Hx) as (Hlen & Hcap & _ & _).
  destruct (xor_loop_total (length c0) 0 k0 n0 p0 c') as [c1 Hseal]; try lia.
  destruct (tag_loop_total 16 0 k0 n0 (Z.of_nat (length c0)) t')
    as [t1 Htag]; try lia.
  exists c1, t1. split_and!.
  - apply mock_encrypt_run; rewrite ?Nat2Z.id; done.
  - rewrite (xor_loop_round_trip _ _ _ _ _ _ _ _ Hc Hx Hseal).
    by apply take_ge.
  - apply tag_loop_spec in Htag as (_ & _ & _ & Hin).
    pose proof (proj1 (verify_loop_true _ _ _ _ _ _) Hv) as Hall.
    apply list_eq. intros i. destruct (decide (i < 16)%nat) as [Hi | Hi].
    + rewrite !lookup_take_lt by done.
      destruct (Hin i ltac:(lia)) as (v & -> & Hat).
      destruct (Hall i ltac:(lia)) as (w & -> & Hat').
      f_equal. by eapply tag_at_fun.
    + by rewrite !lookup_take_ge by lia.
Qed.

Lemma mock_open_then_seal_witness :
  exists c1 t1,
    Mock.aesgcmsiv_encrypt (Some (seqZ 1 32)) 32 (Some (zeros 12)) 12
      (Some hello) 5 None 0 (Some (zeros 5)) (Some (zeros 16)) =
      Some (AESGCMSIV_SUCCESS, Some c1, Some t1) /\
    take 5 c1 = [105; 103; 111; 104; 106] /\
    take 16 t1 = take 16 (seqZ 6 16).
Proof.
  apply (mock_open_then_seal (seqZ 1 32) (zeros 12) [105; 103; 111; 104; 106]
           (seqZ 6 16) (zeros 5) (zeros 5) (zeros 16) 32 12 None 0 hello).
  - reflexivity.
  - reflexivity.
  - unfold bytes, byte_range. repeat constructor; lia.
  - simpl. lia.
  - simpl. lia.
  - by vm_compute.
Defined.

(** X8 (one transform for both directions): on the same data, key and
    nonce, the bytes that Seal writes into the ciphertext buffer are the
    bytes that Open writes into the plaintext buffer, whether Open then
    accepts the tag or not. *)
Theorem mock_seal_open_same_transform (k n data c t tag o : buffer)
    key_len nonce_len len (aad aad' : ptr) aad_len aad_len'
    (c1 : buffer) (t1 : ptr) code (p1 : buffer) :
  Mock.aesgcmsiv_encrypt (Some k) key_len (Some n) nonce_len (Some data) len
    aad aad_len (Some c) (Some t) = Some (AESGCMSIV_SUCCESS, Some c1, t1) ->
  Mock.aesgcmsiv_decrypt (Some k) key_len (Some n) nonce_len (Some data) len
    aad' aad_len' (Some tag) (Some o) = Some (code, Some p1) ->
  code = AESGCMSIV_SUCCESS \/ code = AESGCMSIV_ERROR_DECRYPT_FAILED ->
  take (Z.to_nat len) c1 = take (Z.to_nat len) p1.
Proof.
  intros Hseal Hopen Hcode.
  apply mock_encrypt_inv in Hseal
    as [(Hin & _) | (_ & _ & _ & _ & ? & ? & ? & ? & ? & ? & ? & Hs)].
  { by apply success_not_validation_error in Hin. }
  destruct Hs as (? & ? & ? & ? & ? & ? & ? & Hx1 & _).
  apply mock_decrypt_inv in Hopen
    as [(Hin & _) | (_ & _ & _ & ? & ? & ? & ? & ? & ? & ok & Ho)].
  { destruct Hcode as [-> | ->];
      [by apply success_not_validation_error in Hin
      | by apply decrypt_failed_not_validation_error in Hin]. }
  destruct Ho as (? & ? & ? & ? & ? & ? & Hx2 & _). simplify_eq.
  by eapply xor_loop_deterministic.
Qed.

Lemma mock_seal_open_same_transform_witness :
  take (Z.to_nat 5) [105; 103; 111; 104; 106] =
  take (Z.to_nat 5) [105; 103; 111; 104; 106; 9].
Proof.
  apply (mock_seal_open_same_transform (seqZ 1 32) (zeros 12) hello (zeros 5)
           (zeros 16) (zeros 16) (replicate 6 9) 32 12 5 None None 0 0
           [105; 103; 111; 104; 106] (Some (seqZ 6 16))
           AESGCMSIV_ERROR_DECRYPT_FAILED [105; 103; 111; 104; 106; 9]).
  - by vm_compute.
  - by vm_compute.
  - by right.
Defined.

(** X9 (the aad is not bound): the test double never reads the aad bytes.
    For any two aads that pass its aad check, Seal returns the same result
    and Open returns the same result. *)
Theorem mock_ignores_aad (key : ptr) key_len (nonce : ptr) nonce_len
    (data : ptr) len (aad aad' : ptr) aad_len aad_len' (b2 b3 : ptr) :
  aad_accepted aad aad_len -> aad_accepted aad' aad_len' ->
  Mock.aesgcmsiv_encrypt key key_len nonce nonce_len data len aad aad_len
    b2 b3 =
  Mock.aesgcmsiv_encrypt key key_len nonce nonce_len data len aad' aad_len'
    b2 b3 /\
  Mock.aesgcmsiv_decrypt key key_len nonce nonce_len data len aad aad_len
    b2 b3 =
  Mock.aesgcmsiv_decrypt key key_len nonce nonce_len data len aad' aad_len'
    b2 b3.
Proof.
  intros H H'. unfold Mock.aesgcmsiv_encrypt, Mock.aesgcmsiv_decrypt.
  by rewrite (aad_accepted_check _ _ H), (aad_accepted_check _ _ H').
Qed.

Lemma mock_ignores_aad_witness :
  Mock.aesgcmsiv_encrypt (Some (zeros 32)) 32 (Some (zeros 12)) 12
    (Some hello) 5 None 0 (Some (zeros 5)) (Some (zeros 16)) =
  Mock.aesgcmsiv_encrypt (Some (zeros 32)) 32 (Some (zeros 12)) 12
    (Some hello) 5 (Some [1; 2; 3]) 3 (Some (zeros 5)) (Some (zeros 16)) /\
  Mock.aesgcmsiv_decrypt (Some (zeros 32)) 32 (Some (zeros 12)) 12
    (Some hello) 5 None 0 (Some (zeros 5)) (Some (zeros 16)) =
  Mock.aesgcmsiv_decrypt (Some (zeros 32)) 32 (Some (zeros 12)) 12
    (Some hello) 5 (Some [1; 2; 3]) 3 (Some (zeros 5)) (Some (zeros 16)).
Proof.
  apply (mock_ignores_aad (Some (zeros 32)) 32 (Some (zeros 12)) 12
           (Some hello) 5 None (Some [1; 2; 3]) 0 3 (Some (zeros 5))
           (Some (zeros 16))).
  - by left.
  - right. lia.
Defined.

(** X10 (key and nonce can cancel): when the key byte and the nonce byte
    that the transform combines are equal at every index below the length
    (all-zero key and nonce, or any byte repeated through both), a
    successful Seal writes the plaintext itself as ciphertext. *)
Theorem mock_seal_identity_when_key_is_nonce (k n p c t : buffer)
    key_len nonce_len (aad : ptr) aad_len (c1 : buffer) (t1 : ptr) :
  bytes p ->
  (forall j, (j < length p)%nat -> k !! (j mod 32)%nat = n !! (j mod 12)%nat) ->
  Mock.aesgcmsiv_encrypt (Some k) key_len (Some n) nonce_len
    (Some p) (Z.of_nat (length p)) aad aad_len (Some c) (Some t) =
    Some (AESGCMSIV_SUCCESS, Some c1, t1) ->
  take (length p) c1 = p.
Proof.
  intros Hp Hkn Hseal.
  apply mock_encrypt_inv in Hseal
    as [(Hin & _) | (_ & _ & _ & _ & k' & n' & p' & c' & t' & c2 & t2 & Hs)].
  { by apply success_not_validation_error in Hin. }
  destruct Hs as ([= <-] & [= <-] & [= <-] & [= <-] & _ & [= <-] & _ & Hx & _).
  rewrite Nat2Z.id in Hx. apply xor_loop_spec in Hx as (_ & _ & _ & Hin).
  apply list_eq. intros i.
  destruct (decide (i < length p)%nat) as [Hi | Hi].
  - rewrite lookup_take_lt by done.
    destruct (Hin i ltac:(lia)) as (v & -> & x & kj & nj & Hx & Hkj & Hnj & ->).
    rewrite Hkn, Hnj in Hkj by done. simplify_eq. rewrite Hx. f_equal.
    rewrite Z.lxor_assoc, Z.lxor_nilpotent, Z.lxor_0_r.
    apply uint8_small. by eapply (Forall_lookup_1 _ p).
  - rewrite lookup_take_ge by lia. symmetry. apply lookup_ge_None_2. lia.
Qed.

Lemma mock_seal_identity_when_key_is_nonce_witness :
  take (length hello) hello = hello.
Proof.
  apply (mock_seal_identity_when_key_is_nonce (replicate 32 77)
           (replicate 12 77) hello (zeros 5) (zeros 16) 32 12 None 0 hello
           (Some (replicate 16 159))).
  - unfold bytes, hello, byte_range. repeat constructor; lia.
  - intros j Hj. simpl in Hj.
    do 5 (destruct j as [| j]; [reflexivity |]). lia.
  - by vm_compute.
Defined.

(** * Further properties of the OpenSSL adapter *)

Lemma validate_encrypt_params_codes key key_len nonce nonce_len plaintext
    plaintext_len aad aad_len ciphertext_out tag_out :
  Production.validate_encrypt_params key key_len nonce nonce_len plaintext
    plaintext_len aad aad_len ciphertext_out tag_out ∈
  [AESGCMSIV_SUCCESS; AESGCMSIV_ERROR_INVALID_KEY;
   AESGCMSIV_ERROR_INVALID_NONCE; AESGCMSIV_ERROR_INVALID_INPUT].
Proof.
  unfold Production.validate_encrypt_params.
  repeat case_match;
    repeat first [apply list_elem_of_here | apply list_elem_of_further].
Qed.

Lemma cast_int_period v m : cast_int (v + m * 2 ^ 32) = cast_int v.
Proof.
  unfold cast_int. f_equal.
  replace (v + m * 2 ^ 32 + 2 ^ 31) with (v + 2 ^ 31 + m * 2 ^ 32) by lia.
  apply Z.mod_add. lia.
Qed.

(** X11 (return codes of the adapter's Seal): whatever OpenSSL does, Seal
    returns success, InvalidKey, InvalidNonce, InvalidInput or Internal;
    it never returns InvalidTag or DecryptFailed. *)
Theorem production_seal_return_codes `{E : Production.EVP}
    (key : ptr) key_len (nonce : ptr) nonce_len (plaintext : ptr) len
    (aad : ptr) aad_len (ciphertext_out tag_out : ptr) code c' t' :
  Production.aesgcmsiv_encrypt key key_len nonce nonce_len plaintext len
    aad aad_len ciphertext_out tag_out = (code, c', t') ->
  code ∈ [AESGCMSIV_SUCCESS; AESGCMSIV_ERROR_INVALID_KEY;
          AESGCMSIV_ERROR_INVALID_NONCE; AESGCMSIV_ERROR_INVALID_INPUT;
          AESGCMSIV_ERROR_INTERNAL].
Proof.
  intros H. apply production_encrypt_inv in H as [(-> & _) | [-> | ->]].
  - pose proof (validate_encrypt_params_codes key key_len nonce nonce_len
                  plaintext len aad aad_len ciphertext_out tag_out) as Hv.
    rewrite !elem_of_cons in Hv. rewrite !elem_of_cons. tauto.
  - repeat first [apply list_elem_of_here | apply list_elem_of_further].
  - apply list_elem_of_here.
Qed.

Lemma production_seal_return_codes_witness :
  AESGCMSIV_ERROR_INTERNAL ∈
    [AESGCMSIV_SUCCESS; AESGCMSIV_ERROR_INVALID_KEY;
     AESGCMSIV_ERROR_INVALID_NONCE; AESGCMSIV_ERROR_INVALID_INPUT;
     AESGCMSIV_ERROR_INTERNAL].
Proof.
  apply (production_seal_return_codes (E := no_cipher) (Some (zeros 32)) 32
           (Some (zeros 12)) 12 (Some hello) 5 None 0 (Some (zeros 5))
           (Some (zeros 16)) AESGCMSIV_ERROR_INTERNAL (Some (zeros 5))
           (Some (zeros 16))).
  reflexivity.
Defined.

(** X12 (OpenSSL without the cipher): when the arguments pass validation
    but OpenSSL cannot allocate a context or does not provide
    "AES-256-GCM-SIV", Seal and Open return Internal and the output buffers
    hold what they held before the call. *)
Theorem production_engine_unavailable `{E : Production.EVP}
    (key : ptr) key_len (nonce : ptr) nonce_len (b1 : ptr) len
    (aad : ptr) aad_len (b2 b3 : ptr) :
  Production.validate_encrypt_params key key_len nonce nonce_len b1 len
    aad aad_len b2 b3 = AESGCMSIV_SUCCESS ->
  Production.EVP_CIPHER_CTX_new = None \/
  Production.EVP_CIPHER_fetch "AES-256-GCM-SIV" = None ->
  Production.aesgcmsiv_encrypt key key_len nonce nonce_len b1 len aad aad_len
    b2 b3 = (AESGCMSIV_ERROR_INTERNAL, b2, b3) /\
  Production.aesgcmsiv_decrypt key key_len nonce nonce_len b1 len aad aad_len
    b2 b3 = (AESGCMSIV_ERROR_INTERNAL, b3).
Proof.
  intros Hv Hengine.
  assert (Hv' : Production.validate_decrypt_params key key_len nonce nonce_len
                  b1 len aad aad_len b2 b3 = AESGCMSIV_SUCCESS) by exact Hv.
  unfold Production.aesgcmsiv_encrypt, Production.aesgcmsiv_decrypt.
  rewrite Hv, Hv'. simpl.
  destruct Hengine as [-> | Hfetch]; [done |].
  rewrite Hfetch. by destruct Production.EVP_CIPHER_CTX_new.
Qed.

Lemma production_engine_unavailable_witness :
  Production.aesgcmsiv_encrypt (E := no_cipher) (Some (zeros 32)) 32
    (Some (zeros 12)) 12 (Some hello) 5 None 0 (Some (zeros 5))
    (Some (zeros 16)) =
    (AESGCMSIV_ERROR_INTERNAL, Some (zeros 5), Some (zeros 16)) /\
  Production.aesgcmsiv_decrypt (E := no_cipher) (Some (zeros 32)) 32
    (Some (zeros 12)) 12 (Some hello) 5 None 0 (Some (zeros 5))
    (Some (zeros 16)) = (AESGCMSIV_ERROR_INTERNAL, Some (zeros 16)).
Proof.
  apply (production_engine_unavailable (E := no_cipher)).
  - reflexivity.
  - right. reflexivity.
Defined.

(** X13 (when the adapter's Open touches the plaintext buffer): whatever
    OpenSSL does, if Open returns a code other than success and
    DecryptFailed (a validation error, Internal or InvalidTag), the
    plaintext buffer holds what it held before the call: every such return
    comes before [EVP_DecryptUpdate] on the ciphertext. *)
Theorem production_open_untouched `{E : Production.EVP}
    (key : ptr) key_len (nonce : ptr) nonce_len (ciphertext : ptr) len
    (aad : ptr) aad_len (tag plaintext_out : ptr) code p' :
  Production.aesgcmsiv_decrypt key key_len nonce nonce_len ciphertext len
    aad aad_len tag plaintext_out = (code, p') ->
  code <> AESGCMSIV_SUCCESS -> code <> AESGCMSIV_ERROR_DECRYPT_FAILED ->
  p' = plaintext_out.
Proof.
  unfold Production.aesgcmsiv_decrypt. intros H Hs Hf.
  repeat case_match; by simplify_eq.
Qed.

Lemma production_open_untouched_witness :
  Some (zeros 5) = Some (zeros 5).
Proof.
  apply (production_open_untouched (E := no_cipher) (Some (zeros 32)) 32
           (Some (zeros 12)) 12 (Some hello) 5 None 0 (Some (zeros 16))
           (Some (zeros 5)) AESGCMSIV_ERROR_INTERNAL (Some (zeros 5)));
    by vm_compute.
Defined.

(** X14 (lengths go to OpenSSL as [int]): the adapter hands the data length
    to OpenSSL through [static_cast<int>] and uses it nowhere else, so Seal
    and Open behave the same for a declared data length and for that length
    plus any multiple of 2^32. *)
Theorem production_length_wraps `{E : Production.EVP}
    (key : ptr) key_len (nonce : ptr) nonce_len (b1 : ptr) len m
    (aad : ptr) aad_len (b2 b3 : ptr) :
  Production.aesgcmsiv_encrypt key key_len nonce nonce_len b1
    (len + m * 2 ^ 32) aad aad_len b2 b3 =
  Production.aesgcmsiv_encrypt key key_len nonce nonce_len b1 len
    aad aad_len b2 b3 /\
  Production.aesgcmsiv_decrypt key key_len nonce nonce_len b1
    (len + m * 2 ^ 32) aad aad_len b2 b3 =
  Production.aesgcmsiv_decrypt key key_len nonce nonce_len b1 len
    aad aad_len b2 b3.
Proof.
  unfold Production.aesgcmsiv_encrypt, Production.aesgcmsiv_decrypt,
    Production.validate_encrypt_params, Production.validate_decrypt_params.
  by rewrite cast_int_period.
Qed.

(** X15 (the backends agree on validation, the empty aad apart): for an
    aad that passes the test double's aad check and regions as large as
    declared, the code that the test double's Seal returns is the verdict
    of the adapter's [validate_encrypt_params] on the same arguments, and
    the code of its Open is the verdict of [validate_decrypt_params] unless
    that verdict is success and the tag loop says DecryptFailed. *)
Theorem mock_code_is_validator_verdict (key : ptr) key_len (nonce : ptr)
    nonce_len (b1 : ptr) len (aad : ptr) aad_len (b2 b3 : ptr) :
  aad_accepted aad aad_len ->
  region_ok key (Z.to_nat key_len) -> region_ok nonce (Z.to_nat nonce_len) ->
  region_ok b1 (Z.to_nat len) ->
  (region_ok b2 (Z.to_nat len) -> region_ok b3 16 ->
   exists c' t',
     Mock.aesgcmsiv_encrypt key key_len nonce nonce_len b1 len aad aad_len
       b2 b3 =
     Some (Production.validate_encrypt_params key key_len nonce nonce_len b1
             len aad aad_len b2 b3, c', t')) /\
  (region_ok b2 16 -> region_ok b3 (Z.to_nat len) ->
   exists code p',
     Mock.aesgcmsiv_decrypt key key_len nonce nonce_len b1 len aad aad_len
       b2 b3 = Some (code, p') /\
     (code = Production.validate_decrypt_params key key_len nonce nonce_len
               b1 len aad aad_len b2 b3 \/
      Production.validate_decrypt_params key key_len nonce nonce_len
        b1 len aad aad_len b2 b3 = AESGCMSIV_SUCCESS /\
      code = AESGCMSIV_ERROR_DECRYPT_FAILED)).
Proof.
  intros Haad Hk Hn H1.
  unfold Mock.aesgcmsiv_encrypt, Mock.aesgcmsiv_decrypt,
    Production.validate_encrypt_params, Production.validate_decrypt_params.
  rewrite (aad_accepted_check _ _ Haad).
  destruct key as [k |], (Z.eqb_spec key_len AESGCMSIV_KEY_SIZE) as [-> |];
    simpl; try solve [split; intros; eauto 8].
  destruct nonce as [n |],
    (Z.eqb_spec nonce_len AESGCMSIV_NONCE_SIZE) as [-> |];
    simpl; try solve [split; intros; eauto 8].
  destruct b1 as [d |], b2 as [x |], b3 as [y |];
    simpl; try solve [split; intros; eauto 8].
  simpl in Hk, Hn, H1.
  change (Z.to_nat AESGCMSIV_KEY_SIZE) with 32%nat in Hk.
  change (Z.to_nat AESGCMSIV_NONCE_SIZE) with 12%nat in Hn.
  change (Z.to_nat AESGCMSIV_TAG_SIZE) with 16%nat.
  split.
  - intros H2 H3. simpl in H2, H3.
    destruct (xor_loop_total (Z.to_nat len) 0 k n d x) as [c1 ->]; try lia.
    destruct (tag_loop_total 16 0 k n len y) as [t1 ->]; try lia.
    simpl. eauto.
  - intros H2 H3. simpl in H2, H3.
    destruct (xor_loop_total (Z.to_nat len) 0 k n d y) as [p1 ->]; try lia.
    destruct (verify_loop_total 16 0 k n len x) as [ok ->]; try lia.
    simpl. destruct ok; eauto 6.
Qed.

Lemma mock_code_is_validator_verdict_witness :
  exists c' t',
    Mock.aesgcmsiv_encrypt (Some (zeros 32)) 32 (Some (zeros 12)) 8
      (Some hello) 5 None 0 (Some (zeros 5)) (Some (zeros 16)) =
    Some (Production.validate_encrypt_params (Some (zeros 32)) 32
            (Some (zeros 12)) 8 (Some hello) 5 None 0 (Some (zeros 5))
            (Some (zeros 16)), c', t').
Proof.
  destruct (mock_code_is_validator_verdict (Some (zeros 32)) 32
              (Some (zeros 12)) 8 (Some hello) 5 None 0 (Some (zeros 5))
              (Some (zeros 16))) as (Hseal & _).
  - by left.
  - simpl. lia.
  - simpl. lia.
  - simpl. lia.
  - apply Hseal; simpl; lia.
Defined.
